(** * audio_sync_improved.py: scanning, hashing, ranking and reporting

    A shallow embedding of [src/.devcontainer/audio_sync_improved.py].
    Python [str] and [bytes] values are byte strings ([string],
    [list byte]), [int] is [Z], a [float] is a binary64 value given by its
    sign, mantissa and exponent ([spec_float]; the quotient of line 35 by
    a mantissa and an exponent in [Z]),
    [None]-able values are [option]s, a [dict] is a [gmap].  What the
    program asks of the operating system (directory listings, [stat],
    file contents) and of the tag reader is read from a [world] record, so
    that every function below is a function of its arguments and of the
    world it runs in. *)

From Stdlib Require Import ZArith List Ascii String Strings.Byte SpecFloat Lia Bool.
From stdpp Require Import gmap strings list fin_maps.

Import ListNotations.
Local Open Scope string_scope.
Local Open Scope list_scope.
Local Open Scope Z_scope.

(** ** Python string helpers *)

Module PyStr.

(** [s.startswith(p)] *)
Definition startswith (s p : string) : bool := String.prefix p s.

(** [s.endswith(p)] *)
Definition endswith (s p : string) : bool :=
  let n := String.length s in
  let m := String.length p in
  (m <=? n)%nat && String.eqb (String.substring (n - m) m s) p.

(** [c.lower()] on one byte: the ASCII capitals move down, every other
    byte stays.  The program lowers a string only to compare it with ASCII
    text (the audio extensions, [.localized]); there this agrees with
    Python's lowering of Unicode text, in which the one non-ASCII character
    that becomes an ASCII letter is the Kelvin sign, which becomes [k]. *)
Definition lower_ascii (c : ascii) : ascii :=
  let n := nat_of_ascii c in
  if ((65 <=? n) && (n <=? 90))%nat then ascii_of_nat (n + 32) else c.

(** [s.lower()] *)
Fixpoint lower (s : string) : string :=
  match s with
  | EmptyString => EmptyString
  | String c s' => String (lower_ascii c) (lower s')
  end.

(** [s.split("/")]: never empty, one more piece than there are slashes. *)
Fixpoint split_slash (s : string) : list string :=
  match s with
  | EmptyString => [EmptyString]
  | String c s' =>
      if Ascii.eqb c "/" then EmptyString :: split_slash s'
      else match split_slash s' with
           | x :: xs => String c x :: xs
           | [] => [String c EmptyString]
           end
  end.

(** ["/".join(parts)] *)
Fixpoint join_slash (parts : list string) : string :=
  match parts with
  | [] => EmptyString
  | [x] => x
  | x :: rest => x +:+ "/" +:+ join_slash rest
  end.

(** [s.rfind(".")], [None] standing for Python's [-1]. *)
Fixpoint rfind_dot (s : string) : option nat :=
  match s with
  | EmptyString => None
  | String c s' =>
      match rfind_dot s' with
      | Some i => Some (S i)
      | None => if Ascii.eqb c "." then Some 0%nat else None
      end
  end.

(** [s[i:]] *)
Definition drop (i : nat) (s : string) : string :=
  String.substring i (String.length s - i) s.

(** Truth value of a string: [bool(s)]. *)
Definition truthy (s : string) : bool := negb (String.eqb s EmptyString).

End PyStr.

(** ** [pathlib] and [posixpath] on POSIX *)

Module PosixPath.

(** A parsed pure path: the root (empty, ["/"] or ["//"]) and the
    components after it. *)
Record t := mk { root : string; tail : list string }.

(** [posixpath.splitroot]: one leading slash, or three and more, make
    the root ["/"]; exactly two make the root ["//"]. *)
Definition splitroot (p : string) : string * string :=
  match p with
  | String "/" (String "/" (String "/" r)) => ("/", String "/" (String "/" r))
  | String "/" (String "/" r) => ("//", r)
  | String "/" r => ("/", r)
  | _ => (EmptyString, p)
  end.

(** [Path(s)]: split off the root, split the rest at the slashes, drop
    the empty components and the ["."] components. *)
Definition Path (s : string) : t :=
  let '(r, rel) := splitroot s in
  mk r (List.filter (fun x => negb (String.eqb x EmptyString) && negb (String.eqb x "."))
          (PyStr.split_slash rel)).

(** [str(p)] *)
Definition str (p : t) : string :=
  if PyStr.truthy (root p) then root p +:+ PyStr.join_slash (tail p)
  else match tail p with
       | [] => "."
       | _ => PyStr.join_slash (tail p)
       end.

(** [posixpath.join(a, b)] *)
Definition join (a b : string) : string :=
  if PyStr.startswith b "/" then b
  else if negb (PyStr.truthy a) || PyStr.endswith a "/" then a +:+ b
  else a +:+ "/" +:+ b.

(** [p / key] *)
Definition truediv (p : t) (key : string) : t := Path (join (str p) key).

(** [p.name] *)
Definition name (p : t) : string := List.last (tail p) EmptyString.

(** [p.suffix]: the part of the name from its last dot on, when that dot
    is neither the first nor the last character of the name. *)
Definition suffix (p : t) : string :=
  let nm := name p in
  match PyStr.rfind_dot nm with
  | Some i =>
      if ((0 <? i) && (i <? String.length nm - 1))%nat then PyStr.drop i nm
      else EmptyString
  | None => EmptyString
  end.

End PosixPath.

(** ** SHA-1 ([hashlib.sha1]) *)

Module Sha1.

Definition mask32 (x : Z) : Z := Z.land x 0xFFFFFFFF.

(** Rotation of a 32-bit word to the left. *)
Definition rotl (n x : Z) : Z :=
  mask32 (Z.lor (Z.shiftl x n) (Z.shiftr x (32 - n))).

(** [n] bytes of [x], most significant first. *)
Fixpoint be_bytes (n : nat) (x : Z) : list Z :=
  match n with
  | O => []
  | S k => Z.land (Z.shiftr x (8 * Z.of_nat k)) 0xFF :: be_bytes k x
  end.

(** The message, a 1 bit, zeros up to 56 modulo 64 bytes, and the length
    in bits on 8 bytes. *)
Definition pad (msg : list Z) : list Z :=
  let len := Z.of_nat (List.length msg) in
  msg ++ [0x80] ++ List.repeat 0 (Z.to_nat ((55 - len) mod 64))
      ++ be_bytes 8 (8 * len).

Fixpoint words (bs : list Z) : list Z :=
  match bs with
  | b0 :: b1 :: b2 :: b3 :: rest =>
      Z.lor (Z.shiftl b0 24) (Z.lor (Z.shiftl b1 16) (Z.lor (Z.shiftl b2 8) b3))
        :: words rest
  | _ => []
  end.

Fixpoint blocks (fuel : nat) (ws : list Z) : list (list Z) :=
  match fuel, ws with
  | S f, _ :: _ => List.firstn 16 ws :: blocks f (List.skipn 16 ws)
  | _, _ => []
  end.

(** The 80 words of the message schedule of one block. *)
Definition schedule (block : list Z) : list Z :=
  let next (ws : list Z) :=
    rotl 1 (Z.lxor (Z.lxor (List.nth 2 ws 0) (List.nth 7 ws 0))
                   (Z.lxor (List.nth 13 ws 0) (List.nth 15 ws 0))) :: ws in
  List.rev (Nat.iter 64 next (List.rev block)).

Definition regs : Type := Z * Z * Z * Z * Z.

Definition round (st : regs) (tw : nat * Z) : regs :=
  let '(a, b, c, d, e) := st in
  let '(t, wt) := tw in
  let '(f, k) :=
    if (t <? 20)%nat then
      (Z.lor (Z.land b c) (Z.land (Z.lxor b 0xFFFFFFFF) d), 0x5A827999)
    else if (t <? 40)%nat then
      (Z.lxor (Z.lxor b c) d, 0x6ED9EBA1)
    else if (t <? 60)%nat then
      (Z.lor (Z.lor (Z.land b c) (Z.land b d)) (Z.land c d), 0x8F1BBCDC)
    else
      (Z.lxor (Z.lxor b c) d, 0xCA62C1D6) in
  (mask32 (rotl 5 a + f + e + k + wt), a, rotl 30 b, c, d).

Definition compress (h : regs) (block : list Z) : regs :=
  let '(h0, h1, h2, h3, h4) := h in
  let '(a, b, c, d, e) :=
    List.fold_left round (List.combine (List.seq 0 80) (schedule block)) h in
  (mask32 (h0 + a), mask32 (h1 + b), mask32 (h2 + c), mask32 (h3 + d),
   mask32 (h4 + e)).

Definition init : regs :=
  (0x67452301, 0xEFCDAB89, 0x98BADCFE, 0x10325476, 0xC3D2E1F0).

Definition digest (msg : list Z) : regs :=
  let ws := words (pad msg) in
  List.fold_left compress (blocks (List.length ws) ws) init.

Definition hex_digit (x : Z) : ascii :=
  match String.get (Z.to_nat (Z.land x 0xF)) "0123456789abcdef" with
  | Some c => c
  | None => "0"%char
  end.

Definition hex8 (x : Z) : string :=
  String (hex_digit (Z.shiftr x 28)) (String (hex_digit (Z.shiftr x 24))
 (String (hex_digit (Z.shiftr x 20)) (String (hex_digit (Z.shiftr x 16))
 (String (hex_digit (Z.shiftr x 12)) (String (hex_digit (Z.shiftr x 8))
 (String (hex_digit (Z.shiftr x 4)) (String (hex_digit x) EmptyString))))))).

Definition hex (r : regs) : string :=
  let '(h0, h1, h2, h3, h4) := r in
  hex8 h0 +:+ hex8 h1 +:+ hex8 h2 +:+ hex8 h3 +:+ hex8 h4.

Definition byte_val (b : byte) : Z := Z.of_N (Byte.to_N b).

(** The 40 hexadecimal digits of the SHA-1 digest of [msg]. *)
Definition hexdigest (msg : list byte) : string :=
  hex (digest (List.map byte_val msg)).

End Sha1.

(** The hash object of [hashlib]: it behaves as the bytes it was fed. *)
Module hashlib.

Record sha1_object := { fed : list byte }.

Definition sha1 : sha1_object := {| fed := [] |}.

Definition update (h : sha1_object) (data : list byte) : sha1_object :=
  {| fed := fed h ++ data |}.

Definition hexdigest (h : sha1_object) : string := Sha1.hexdigest (fed h).

End hashlib.

(** ** The world the program runs in *)

(** What [p.is_file() and p.stat().st_size > 0] meets at one directory
    entry that is not a directory. *)
Inductive access :=
| AccessError (e : string)   (* [is_file()] or [stat()] raises [OSError]; [e] is [str(e)] *)
| NotAFile                    (* [is_file()] is [False] *)
| IsFile (st_size : Z).       (* a regular file of that size *)

(** A directory tree as [os.scandir] shows it: the entries of a directory
    in the order they are listed.  A directory that cannot be listed, and a
    link to a directory, are directories without entries here: [os.walk]
    passes over the error of the first and does not follow the second. *)
#[warning="-register-all"]
Inductive node :=
| File (a : access)
| Dir (entries : list (string * node)).

(** [audio.info] of a file that mutagen could open. *)
Record stream_info := {
  info_bitrate : option Z;      (* an [int]; [None]: no attribute [bitrate] *)
  info_length : option spec_float    (* [None]: no attribute [length] *)
}.

(** What [MutagenFile(str(path), easy=False)] does. *)
Inductive mutagen_result :=
| MutagenRaises                       (* any exception while opening or parsing *)
| MutagenNone                         (* the call returns [None] *)
| MutagenAudio (info : option stream_info).  (* [None]: reading [audio.info] raises *)

Record world := {
  (** what lies at a root path; [None] when [Path(root_path).exists()] does
      not answer [True] *)
  tree_at : string -> option node;
  (** for a path without a tree: [None] when [exists()] answers [False]
      (pathlib 3.11 does when [stat] fails with ENOENT, ENOTDIR, EBADF or
      ELOOP), [Some e] when it raises the [OSError] of any other failure
      of [stat] (EACCES, ENAMETOOLONG, ...), [e] being its [strerror] *)
  exists_error : string -> option string;
  (** [open(path, "rb")] and the reads: [None] when one of them raises [OSError] *)
  read_bytes : string -> option (list byte);
  mutagen_file : string -> mutagen_result
}.

(** ** The program *)

Definition AUDIO_EXT : gset string :=
  {[ ".wav"; ".aif"; ".aiff"; ".flac"; ".m4a"; ".aac"; ".mp3" ]}.

(** The integer nearest to the exact quotient of [n] by [d > 0], the even
    one at a tie.  Both roundings of [round(bitrate / 1000)] are of this
    kind: that of the quotient to a float, and that of the float to an
    integer. *)
Definition round_div (n d : Z) : Z :=
  let q := n / d in
  let r := n mod d in
  if 2 * r <? d then q
  else if d <? 2 * r then q + 1
  else if Z.even q then q else q + 1.

(** [a / d] for two [int]s, [a >= 0] and [d > 0]: the binary64 number
    nearest to the quotient, ties to even, given as a mantissa [m] and an
    exponent [e] (the float is [m * 2^e]); [None] when Python raises
    [OverflowError], the nearest number being [2^1024] or more.  The
    exponent is the one that leaves 53 bits to the mantissa, and no less
    than -1074. *)
Definition true_divide (a d : Z) : option (Z * Z) :=
  if a =? 0 then Some (0, 0)
  else
    let e0 := Z.log2 a - Z.log2 d - 53 in
    let floor_at e := if 0 <=? e then a / (d * 2 ^ e) else (a * 2 ^ (- e)) / d in
    let e1 := if 2 ^ 53 <=? floor_at e0 then e0 + 1 else e0 in
    let e := Z.max e1 (-1074) in
    let m :=
      if 0 <=? e then round_div a (d * 2 ^ e) else round_div (a * 2 ^ (- e)) d in
    if (0 <=? e) && (2 ^ 1024 <=? m * 2 ^ e) then None else Some (m, e).

(** [round(x)] for the float [x = m * 2^e]. *)
Definition round_float (m e : Z) : Z :=
  if 0 <=? e then m * 2 ^ e else round_div m (2 ^ (- e)).

(** [round(n / d)] for two [int]s, [d > 0]: the quotient as a float, then
    the float as an integer; [None] for [OverflowError]. *)
Definition round_true_divide (n d : Z) : option Z :=
  match true_divide (Z.abs n) d with
  | Some (m, e) => Some (Z.sgn n * round_float m e)
  | None => None
  end.

Definition get_bitrate_and_duration (w : world) (path : string)
  : option Z * option spec_float :=
  match mutagen_file w path with
  | MutagenRaises => (None, None)
  | MutagenNone => (None, None)
  | MutagenAudio None => (None, None)
  | MutagenAudio (Some info) =>
      let bitrate := info_bitrate info in
      let duration := info_length info in
      match bitrate with
      | Some b =>
          match round_true_divide b 1000 with
          | Some bitrate => (Some bitrate, duration)
          | None => (None, None)    (* [OverflowError], caught as any exception *)
          end
      | None => (None, duration)
      end
  end.

(** The scanner appends to two lists of the caller: the paths found
    ([report]) and the error messages ([errors]). *)
Definition scan_state : Type := list string * list string.

(** The directories [os.walk] descends into after the loop body has edited
    [dirnames] in place. *)
Definition keep_dir (d : string) : bool :=
  negb (PyStr.endswith (PyStr.lower d) ".localized")
  && negb (PyStr.startswith d ".").

(** [os.walk(top)], top down, with the edit of [dirnames] by the consumer
    given as [keep]: one item per directory visited, made of [dirpath] and
    of the entries of [filenames] (each with what [is_file]/[stat] will
    answer for it). *)
Fixpoint os_walk (keep : string -> bool) (top : string) (n : node)
  : list (string * list (string * access)) :=
  match n with
  | File _ => []
  | Dir entries =>
      (top, List.flat_map (fun e => match e.2 with
                                    | File a => [(e.1, a)]
                                    | Dir _ => []
                                    end) entries)
      :: List.flat_map (fun e => match e.2 with
                                 | Dir _ =>
                                     if keep e.1
                                     then os_walk keep (PosixPath.join top e.1) e.2
                                     else []
                                 | File _ => []
                                 end) entries
  end.

(** The body of [for fname in filenames]. *)
Definition scan_file (dirpath : string) (st : scan_state)
  (ent : string * access) : scan_state :=
  let '(fname, a) := ent in
  let '(report, errors) := st in
  if PyStr.startswith fname "._" then st
  else
    let p := PosixPath.truediv (PosixPath.Path dirpath) fname in
    if negb (bool_decide (PyStr.lower (PosixPath.suffix p) ∈ AUDIO_EXT)) then st
    else
      match a with
      | IsFile sz =>
          if 0 <? sz then (report ++ [PosixPath.str p], errors) else st
      | NotAFile => st
      | AccessError e =>
          (report,
           errors ++ [ "Cannot access: " +:+ PosixPath.str p +:+ " - " +:+ e ])
      end.

(** How a call ends: it returns, or an exception that nothing catches
    leaves it and ends the run. *)
Inductive call (A : Type) :=
| Returns (a : A)
| Raises (e : string).

Arguments Returns {A} a.
Arguments Raises {A} e.

(** The exception that leaves [scan_folder(root_path, ...)], if one does:
    that of [root.exists()], which nothing catches.  Everything raised
    later in the function is caught or passed over. *)
Definition scan_folder_raises (w : world) (root_path : string) : option string :=
  match tree_at w root_path with
  | Some _ => None
  | None => exists_error w root_path
  end.

(** [scan_folder(root_path, report, errors)]: the two lists as the call
    leaves them.  When [root.exists()] raises, nothing has been appended
    yet.  The counter of the files found serves the progress output only;
    both are left out. *)
Definition scan_folder (w : world) (root_path : string) (st : scan_state)
  : scan_state :=
  let root := PosixPath.Path root_path in
  match tree_at w root_path with
  | None =>
      match exists_error w root_path with
      | Some _ => st
      | None => (st.1, st.2 ++ [ "Path not found: " +:+ root_path ])
      end
  | Some tree =>
      List.fold_left
        (fun st item => List.fold_left (scan_file item.1) item.2 st)
        (os_walk keep_dir (PosixPath.str root) tree) st
  end.

(** The call as a whole. *)
Definition scan_folder_call (w : world) (root_path : string) (st : scan_state)
  : call scan_state :=
  match scan_folder_raises w root_path with
  | Some e => Raises e
  | None => Returns (scan_folder w root_path st)
  end.

(** The read loop of [hash_file]: [rest] is what the file object has left,
    [f.read(block_size)] takes its first [block_size] bytes. *)
Fixpoint read_loop (fuel : nat) (block_size : Z) (h : hashlib.sha1_object)
  (rest : list byte) : option hashlib.sha1_object :=
  match fuel with
  | O => None
  | S fuel' =>
      let data := List.firstn (Z.to_nat block_size) rest in
      match data with
      | [] => Some h
      | _ => read_loop fuel' block_size (hashlib.update h data)
               (List.skipn (Z.to_nat block_size) rest)
      end
  end.

Definition block_size_default : Z := 65536.

(** [hash_file(path, block_size)]: [None] when opening or reading raises
    [OSError], else the hexadecimal digest. *)

Definition hash_file_with (w : world) (path : string) (block_size : Z)
  : option string :=
  match read_bytes w path with
  | None => None
  | Some content =>
      match read_loop (S (List.length content)) block_size hashlib.sha1 content with
      | Some h => Some (hashlib.hexdigest h)
      | None => None
      end
  end.

Definition hash_file (w : world) (path : string) : option string :=
  hash_file_with w path block_size_default.

Definition compute_quality_rank (ext : string) (bitrate : option Z) : Z :=
  if String.eqb ext ".wav" || String.eqb ext ".aif" || String.eqb ext ".aiff"
  then 1
  else if String.eqb ext ".flac" then 2
  else
    match bitrate with
    | None => 9999
    | Some bitrate =>
        if 320 <=? bitrate then 3
        else if 256 <=? bitrate then 4
        else if 192 <=? bitrate then 5
        else 6
    end.

(** Truth value of a float: everything but the two zeros. *)
Definition float_truthy (x : spec_float) : bool :=
  match x with
  | S754_zero _ => false
  | _ => true
  end.

(** One element of [detailed]. *)
Record entry := {
  source_path : string;
  filename : string;
  format : string;
  bitrate_kbps : option Z;
  duration_sec : option spec_float;
  hash : string;
  in_master : bool;
  quality_rank : Z;
  recommended_action : string
}.

(** What the run does to [master_hashes], in the order it does it.  The
    trace belongs to the model, not to the program: it keeps the order of
    the writes to the dictionary and of the tests on it, and for each test
    the dictionary as it was then. *)
Inductive event :=
| Hashed (f : string) (h : option string)
| Inserted (h f : string)
| Tested (f h : string) (index : gmap string string) (r : bool).

Record state := {
  master_hashes : gmap string string;
  detailed : list entry;
  summary : gmap string nat;
  hash_errors : list string;
  trace : list event
}.

Definition log (e : event) (st : state) : state :=
  {| master_hashes := master_hashes st; detailed := detailed st;
     summary := summary st; hash_errors := hash_errors st;
     trace := trace st ++ [e] |}.

Definition set_master_hash (h f : string) (st : state) : state :=
  log (Inserted h f)
    {| master_hashes := <[h := f]> (master_hashes st); detailed := detailed st;
       summary := summary st; hash_errors := hash_errors st;
       trace := trace st |}.

Definition add_hash_error (f : string) (st : state) : state :=
  {| master_hashes := master_hashes st; detailed := detailed st;
     summary := summary st; hash_errors := hash_errors st ++ [f];
     trace := trace st |}.

Definition add_entry (e : entry) (st : state) : state :=
  let ext := format e in
  {| master_hashes := master_hashes st; detailed := detailed st ++ [e];
     summary := <[ext := S (default O (summary st !! ext))]> (summary st);
     hash_errors := hash_errors st; trace := trace st |}.

Definition initial_state : state :=
  {| master_hashes := ∅; detailed := []; summary := ∅; hash_errors := [];
     trace := [] |}.

(** The four files the run writes, as the data they are written from.  The
    time stamps and the elapsed time come from the clock and are left
    out. *)
Record json_report := {
  json_master_path : string;
  json_total_files : nat;
  json_total_errors : nat;
  json_files : list entry
}.

Definition csv_row : Type :=
  string * string * string * option Z * option spec_float * bool * Z * string.

Record summary_report := {
  sum_master : string;
  sum_total : nat;
  sum_in_master : nat;
  sum_new : nat;
  sum_by_format : gmap string nat;   (* written in the order of its sorted keys *)
  sum_errors : option nat            (* the line is there when an error list is not empty *)
}.

Record reports := {
  report_json : json_report;
  report_detailed_csv : list csv_row;
  report_summary : summary_report;
  report_errors : option (list string * list string)
}.

Inductive outcome :=
| UsageError                                  (* [sys.exit(1)] *)
| Aborted (e : string)                        (* an exception leaves [main]: no report is written *)
| Completed (out : reports) (scan : scan_state) (final : state).

Section Run.

(** Python's [round(x, ndigits)] on floats. *)
Variable py_round : spec_float -> Z -> spec_float.

Variable w : world.

(** The body of the first loop over [all_files] ([master_count] serves the
    progress output only and is left out, as is [processed] in the second
    loop). *)
Definition master_step (master : string) (st : state) (f : string) : state :=
  if PyStr.startswith f master then
    let h := hash_file w f in
    let st := log (Hashed f h) st in
    match h with
    | Some hx => if PyStr.truthy hx then set_master_hash hx f st else st
    | None => st
    end
  else st.

(** The dictionary literal [entry] of the second loop, for a file [f]
    with digest [h], given the index as it is at that moment. *)
Definition make_entry (index : gmap string string) (f h : string) : entry :=
  let '(bitrate, duration) := get_bitrate_and_duration w f in
  let in_master := bool_decide (is_Some (index !! h)) in
  let ext := PyStr.lower (PosixPath.suffix (PosixPath.Path f)) in
  let qrank := compute_quality_rank ext bitrate in
  {| source_path := f;
     filename := PosixPath.name (PosixPath.Path f);
     format := ext;
     bitrate_kbps := bitrate;
     duration_sec :=
       match duration with
       | Some d => if float_truthy d then Some (py_round d 2) else None
       | None => None
       end;
     hash := h;
     in_master := in_master;
     quality_rank := qrank;
     recommended_action :=
       if in_master then "EXISTS_IN_MASTER" else "NEW_IN_MASTER" |}.

(** The body of the second loop over [all_files]. *)
Definition analyze_step (st : state) (f : string) : state :=
  let h := hash_file w f in
  let st := log (Hashed f h) st in
  match h with
  | None => add_hash_error f st
  | Some h =>
      let entry := make_entry (master_hashes st) f h in
      let st := log (Tested f h (master_hashes st) (in_master entry)) st in
      add_entry entry st
  end.

(** The three calls of [scan_folder]; an absent or empty argument is not
    scanned. *)
Definition scan_optional (root : option string) (st : scan_state) : scan_state :=
  match root with
  | Some r => if PyStr.truthy r then scan_folder w r st else st
  | None => st
  end.

Definition scan_all (master : string) (musik evo : option string) : scan_state :=
  let st := scan_folder w master ([], []) in
  let st := scan_optional musik st in
  scan_optional evo st.

Definition build_master_index (master : string) (all_files : list string)
  (st : state) : state :=
  List.fold_left (master_step master) all_files st.

Definition analyze_all (all_files : list string) (st : state) : state :=
  List.fold_left analyze_step all_files st.

Definition csv_of (r : entry) : csv_row :=
  (source_path r, filename r, format r, bitrate_kbps r, duration_sec r,
   in_master r, quality_rank r, recommended_action r).

Definition write_reports (master : string) (errors : list string) (st : state)
  : reports :=
  let detailed := detailed st in
  let hash_errors := hash_errors st in
  let any_error :=
    match errors, hash_errors with
    | [], [] => false
    | _, _ => true
    end in
  let n_errors := (List.length errors + List.length hash_errors)%nat in
  {| report_json :=
       {| json_master_path := master;
          json_total_files := List.length detailed;
          json_total_errors := n_errors;
          json_files := detailed |};
     report_detailed_csv := List.map csv_of detailed;
     report_summary :=
       {| sum_master := master;
          sum_total := List.length detailed;
          sum_in_master := List.length (List.filter in_master detailed);
          sum_new :=
            List.length (List.filter (fun r => negb (in_master r)) detailed);
          sum_by_format := summary st;
          sum_errors := if any_error then Some n_errors else None |};
     report_errors :=
       if any_error then Some (errors, hash_errors) else None |}.

(** The calls of [scan_folder] in [main], as calls: the first that raises
    ends the run. *)
Definition scan_optional_call (root : option string) (st : scan_state)
  : call scan_state :=
  match root with
  | Some r => if PyStr.truthy r then scan_folder_call w r st else Returns st
  | None => Returns st
  end.

Definition scan_all_call (master : string) (musik evo : option string)
  : call scan_state :=
  match scan_folder_call w master ([], []) with
  | Raises e => Raises e
  | Returns st =>
      match scan_optional_call musik st with
      | Raises e => Raises e
      | Returns st => scan_optional_call evo st
      end
  end.

Definition main (argv : list string) : outcome :=
  match argv with
  | _ :: master :: rest =>
      let musik := rest !! 0%nat in
      let evo := rest !! 1%nat in
      match scan_all_call master musik evo with
      | Raises e => Aborted e
      | Returns scan =>
          let '(all_files, errors) := scan in
          let st := build_master_index master all_files initial_state in
          let st := analyze_all all_files st in
          Completed (write_reports master errors st) scan st
      end
  | _ => UsageError
  end.

End Run.

(** The two kinds of event the ordering of the run is about. *)
Definition is_test (e : event) : bool :=
  match e with Tested _ _ _ _ => true | _ => false end.

Definition is_insert (e : event) : bool :=
  match e with Inserted _ _ => true | _ => false end.

(** The first column of a row of [report_detailed.csv]. *)
Definition csv_source_path (r : csv_row) : string := r.1.1.1.1.1.1.1.

(** What the scanner adds to [report] and to [errors] at one item of the
    walk. *)
Definition found_in (item : string * list (string * access)) : list string :=
  List.flat_map (fun ent => (scan_file item.1 ([], []) ent).1) item.2.

Definition errors_in (item : string * list (string * access)) : list string :=
  List.flat_map (fun ent => (scan_file item.1 ([], []) ent).2) item.2.

(** ** What lies under a root

    Every entry below [n] that is not a directory, each with the names of
    the directories passed on the way down to it from [n]. *)
Fixpoint files_under (n : node) : list (list string * string * access) :=
  match n with
  | File _ => []
  | Dir entries =>
      List.flat_map (fun e => match e.2 with
                              | File a => [([], e.1, a)]
                              | Dir _ =>
                                  List.map (fun x => (e.1 :: x.1.1, x.1.2, x.2))
                                    (files_under e.2)
                              end) entries
  end.

(** The path object of the file [fname] in the directory reached from [top]
    through [dirs], formed the way [os.walk] and the scanner form it. *)
Definition path_below (top : string) (dirs : list string) (fname : string)
  : PosixPath.t :=
  PosixPath.truediv (PosixPath.Path (List.fold_left PosixPath.join dirs top)) fname.

(** The name and extension tests of the scanner. *)
Definition audio_name (fname : string) (p : PosixPath.t) : Prop :=
  PyStr.startswith fname "._" = false
  /\ PyStr.lower (PosixPath.suffix p) ∈ AUDIO_EXT.

Definition bytes_of (s : string) : list byte := list_byte_of_string s.

(** ** Concrete worlds *)

Fixpoint assoc {A : Type} (k : string) (l : list (string * A)) : option A :=
  match l with
  | [] => None
  | (k', v) :: l' => if String.eqb k k' then Some v else assoc k l'
  end.

(** A world given by its roots, the files that can be read and the answers
    of the tag reader (files without one are of no known type). *)
Definition world_of (roots : list (string * node))
  (contents : list (string * list byte)) (tags : list (string * mutagen_result))
  : world :=
  {| tree_at := fun r => assoc r roots;
     exists_error := fun _ => None;
     read_bytes := fun p => assoc p contents;
     mutagen_file := fun p => default MutagenNone (assoc p tags) |}.

(** The scenario of the specification, with more around it: a master with
    one FLAC file; a stick with a copy of it as MP3, a new MP3 whose tags
    cannot be parsed, an MP3 that cannot be read, a WAV that cannot be
    looked at, a hidden directory and a sub-directory. *)
(** The float 2.0. *)
Definition two_seconds : spec_float := S754_finite false 4503599627370496 (-51).

Definition usb_tree : node :=
  Dir [ ("b.mp3", File (IsFile 1));
        ("c.mp3", File (IsFile 1));
        ("d.mp3", File (IsFile 1));
        ("e.wav", File (AccessError "Permission denied"));
        (".Trashes", Dir [ ("old.mp3", File (IsFile 1)) ]);
        ("live", Dir [ ("f.MP3", File (IsFile 1));
                       ("notes.txt", File (IsFile 1)) ]) ].

Definition library : world :=
  world_of
    [ ("/master", Dir [ ("a.flac", File (IsFile 1)) ]); ("/usb", usb_tree) ]
    [ ("/master/a.flac", bytes_of "X");
      ("/usb/b.mp3", bytes_of "X");
      ("/usb/c.mp3", bytes_of "Y");
      ("/usb/live/f.MP3", bytes_of "Z") ]
    [ ("/master/a.flac",
       MutagenAudio (Some {| info_bitrate := None; info_length := Some two_seconds |}));
      ("/usb/b.mp3",
       MutagenAudio (Some {| info_bitrate := Some 320000;
                             info_length := Some two_seconds |}));
      ("/usb/c.mp3", MutagenRaises);
      ("/usb/live/f.MP3",
       MutagenAudio (Some {| info_bitrate := Some 127500; info_length := None |})) ].

(** A master [/music] next to a second root [/music2]. *)
Definition sibling_roots : world :=
  world_of
    [ ("/music", Dir [ ("a.mp3", File (IsFile 1)) ]);
      ("/music2", Dir [ ("b.mp3", File (IsFile 1)) ]) ]
    [ ("/music/a.mp3", bytes_of "A"); ("/music2/b.mp3", bytes_of "B") ]
    [].

(** A master given relative to the working directory, as [./music]. *)
Definition relative_master : world :=
  world_of
    [ ("./music", Dir [ ("a.mp3", File (IsFile 1)) ]) ]
    [ ("music/a.mp3", bytes_of "A") ]
    [].

(** A master with one file whose stream is 0.0 seconds long. *)
Definition silent_track : world :=
  world_of
    [ ("/music", Dir [ ("a.mp3", File (IsFile 1)) ]) ]
    [ ("/music/a.mp3", bytes_of "A") ]
    [ ("/music/a.mp3",
       MutagenAudio (Some {| info_bitrate := Some 128000;
                             info_length := Some (S754_zero false) |})) ].

(** A master whose only audio file lies in a hidden directory. *)
Definition hidden_dir : world :=
  world_of
    [ ("/music", Dir [ (".cache", Dir [ ("a.mp3", File (IsFile 1)) ]) ]) ]
    [ ("/music/.cache/a.mp3", bytes_of "A") ]
    [].

(** The command line of the runs on [library]. *)
Definition library_argv : list string :=
  [ "audio_sync.py"; "/master"; "/usb"; "/gone" ].

(** A [round] for the concrete runs (none of them rounds a duration that
    is not already a multiple of 0.01). *)
Definition round_id (x : spec_float) (ndigits : Z) : spec_float := x.

(** The parts of a completed run. *)
Definition completed_reports (o : outcome) : reports :=
  match o with
  | Completed out _ _ => out
  | _ => write_reports EmptyString [] initial_state
  end.

Definition completed_scan (o : outcome) : scan_state :=
  match o with Completed _ sc _ => sc | _ => ([], []) end.

Definition completed_state (o : outcome) : state :=
  match o with Completed _ _ st => st | _ => initial_state end.

(** ** Notions for the further properties *)

(** The sixteen characters a digest is written with. *)
Definition is_hex_digit (c : ascii) : bool :=
  List.existsb (Ascii.eqb c) (list_ascii_of_string "0123456789abcdef").

(** The calls of [hash_file] in the trace. *)
Definition is_hashing (e : event) : bool :=
  match e with Hashed _ _ => true | _ => false end.

(** What [summary] holds for a format with these entries: nothing when
    there is none, else their number. *)
Definition count_entries (l : list entry) : option nat :=
  match l with
  | [] => None
  | _ => Some (List.length l)
  end.

(** The test of the first loop on a path. *)
Definition selected (master f : string) : bool := PyStr.startswith f master.

(** The invariant of [summary]: it counts, for each format, the entries of
    [detailed] of that format. *)
Definition summary_counts (st : state) : Prop :=
  forall ext : string,
    summary st !! ext
    = count_entries (filter (fun e => format e = ext) (detailed st)).

(** ** Paths in normal form

    A name as a directory listing gives it: not empty, not [.], and
    without a slash. *)
Fixpoint has_slash (s : string) : bool :=
  match s with
  | EmptyString => false
  | String c s' => Ascii.eqb c "/" || has_slash s'
  end.

Definition is_component (c : string) : bool :=
  negb (String.eqb c EmptyString) && negb (String.eqb c ".")
  && negb (has_slash c).

(** A tree all of whose entries have such names. *)
Fixpoint valid_names (n : node) : bool :=
  match n with
  | File _ => true
  | Dir entries =>
      List.forallb (fun e => is_component e.1 && valid_names e.2) entries
  end.

(** The path [p] with more components after it. *)
Definition extend (p : PosixPath.t) (names : list string) : PosixPath.t :=
  PosixPath.mk (PosixPath.root p) (PosixPath.tail p ++ names).

(** A path object whose root and components are as [Path] makes them. *)
Definition well_formed (p : PosixPath.t) : Prop :=
  (PosixPath.root p = EmptyString \/ PosixPath.root p = "/"
   \/ PosixPath.root p = "//")
  /\ List.Forall (fun c => is_component c = true) (PosixPath.tail p).

(** A string that [str(Path(s))] gives back as it is. *)
Definition normal (s : string) : Prop := PosixPath.str (PosixPath.Path s) = s.

(** A world in which all the names under every root are names a directory
    listing can give. *)
Definition listed_names (w : world) : Prop :=
  forall (root : string) (tree : node),
    tree_at w root = Some tree -> valid_names tree = true.

(** The components [Path] keeps: neither empty nor [.]. *)
Definition kept_part (x : string) : bool :=
  negb (String.eqb x EmptyString) && negb (String.eqb x ".").

(** What the string of every path below [p] begins with: the root of [p]
    and, when [p] has components, these and a slash. *)
Definition dir_prefix (p : PosixPath.t) : string :=
  PosixPath.root p
  +:+ match PosixPath.tail p with
      | [] => EmptyString
      | _ => PyStr.join_slash (PosixPath.tail p) +:+ "/"
      end.

(** Neither string is the beginning of the other. *)
Definition apart (a b : string) : Prop :=
  String.prefix a b = false /\ String.prefix b a = false.

(** The sum of the numbers of the summary by format. *)
Definition summary_total (m : gmap string nat) : nat :=
  map_fold (fun _ n acc => (n + acc)%nat) O m.

(** The record of [/usb/b.mp3] in the run on [library]. *)
Definition library_record_b : entry :=
  {| source_path := "/usb/b.mp3";
     filename := "b.mp3";
     format := ".mp3";
     bitrate_kbps := Some 320;
     duration_sec := Some two_seconds;
     hash := "c032adc1ff629c9b66f22749ad667e6beadf144b";
     in_master := true;
     quality_rank := 3;
     recommended_action := "EXISTS_IN_MASTER" |}.

(** ** The index as the insertions make it

    The dictionary that a sequence of events leaves when it starts from
    [index]: an insertion is the assignment [master_hashes[h] = f], the
    other events leave the dictionary alone. *)
Definition replay_inserts (t : list event) (index : gmap string string)
  : gmap string string :=
  List.fold_left
    (fun m e => match e with Inserted h f => <[h := f]> m | _ => m end) t index.

(** ** Worlds for the failures of the library calls

    A name of 300 letters, longer than a file name may be: [stat] fails on
    it with ENAMETOOLONG, which [Path.exists] of Python 3.11 does not take
    for an answer but raises. *)
Definition long_name : string :=
  string_of_list_ascii (List.repeat "a"%char 300).

Definition name_too_long : string := "File name too long".

(** The stick of [library] beside a root of that name. *)
Definition unreachable_root : world :=
  {| tree_at := fun r => if String.eqb r "/usb" then Some usb_tree else None;
     exists_error :=
       fun r => if String.eqb r long_name then Some name_too_long else None;
     read_bytes := read_bytes library;
     mutagen_file := mutagen_file library |}.

(** A stream whose bitrate lies above [2^53], where the float quotient of
    line 35 is no longer the quotient, and one whose quotient is beyond
    the floats. *)
Definition huge_bitrate : world :=
  world_of
    [ ("/music", Dir [ ("a.mp3", File (IsFile 1)); ("b.mp3", File (IsFile 1)) ]) ]
    [ ("/music/a.mp3", bytes_of "A"); ("/music/b.mp3", bytes_of "B") ]
    [ ("/music/a.mp3",
       MutagenAudio (Some {| info_bitrate := Some 17592186044519499;
                             info_length := Some two_seconds |}));
      ("/music/b.mp3",
       MutagenAudio (Some {| info_bitrate := Some (1000 * 2 ^ 1024);
                             info_length := Some two_seconds |})) ].

(** * Properties *)

(** ** Test vectors of the digest *)

Example sha1_abc :
  Sha1.hexdigest (bytes_of "abc") = "a9993e364706816aba3e25717850c26c9cd0d89d".
Proof. vm_compute. reflexivity. Qed.

Example sha1_empty :
  Sha1.hexdigest [] = "da39a3ee5e6b4b0d3255bfef95601890afd80709".
Proof. vm_compute. reflexivity. Qed.

Example sha1_two_blocks :
  Sha1.hexdigest (bytes_of "abcdbcdecdefdefgefghfghighijhijkijkljklmklmnlmnomnopnopq")
  = "84983e441c3bd26ebaae4aa1f95129e5e54670f1".
Proof. vm_compute. reflexivity. Qed.

(** ** Paths *)

Example path_str_dot_music :
  PosixPath.str (PosixPath.truediv (PosixPath.Path "./music") "a.mp3") = "music/a.mp3".
Proof. reflexivity. Qed.

Example path_suffix_upper :
  PyStr.lower (PosixPath.suffix (PosixPath.Path "/Volumes/T5/Song.Final.MP3")) = ".mp3".
Proof. reflexivity. Qed.

Example path_suffix_hidden : PosixPath.suffix (PosixPath.Path "/a/.mp3") = EmptyString.
Proof. reflexivity. Qed.

Example path_str_empty : PosixPath.str (PosixPath.Path EmptyString) = ".".
Proof. reflexivity. Qed.

Example path_str_slashes :
  PosixPath.str (PosixPath.Path "/music//sub/./x/") = "/music/sub/x".
Proof. reflexivity. Qed.

(** ** The hasher *)

Lemma hexdigest_truthy (msg : list byte) : PyStr.truthy (Sha1.hexdigest msg) = true.
Proof.
  unfold Sha1.hexdigest, Sha1.hex.
  destruct (Sha1.digest _) as [[[[h0 h1] h2] h3] h4].
  reflexivity.
Qed.

Lemma hexdigest_length (msg : list byte) :
  String.length (Sha1.hexdigest msg) = 40%nat.
Proof.
  unfold Sha1.hexdigest, Sha1.hex.
  destruct (Sha1.digest _) as [[[[h0 h1] h2] h3] h4].
  reflexivity.
Qed.

(** With a positive block size and fuel beyond the length of the file, the
    read loop ends, having fed the hash object the whole file. *)
Lemma read_loop_feeds_all (block_size : Z) :
  0 < block_size ->
  forall (fuel : nat) (rest : list byte) (h : hashlib.sha1_object),
    (List.length rest < fuel)%nat ->
    read_loop fuel block_size h rest
    = Some {| hashlib.fed := hashlib.fed h ++ rest |}.
Proof.
  intros Hpos fuel.
  induction fuel as [|fuel IH]; intros rest h Hlen; [lia|].
  simpl.
  destruct rest as [|b rest].
  - rewrite firstn_nil. destruct h. simpl. by rewrite app_nil_r.
  - destruct (Z.to_nat block_size) as [|n] eqn:Hn; [lia|].
    cbn [List.firstn List.skipn].
    rewrite IH.
    + f_equal. unfold hashlib.update. cbn [hashlib.fed]. f_equal.
      rewrite <- app_assoc. f_equal.
      change (b :: List.firstn n rest ++ List.skipn n rest = b :: rest).
      by rewrite firstn_skipn.
    + rewrite length_skipn. simpl in Hlen. lia.
Qed.

(** The digest does not depend on the block size. *)
Lemma hash_file_with_spec (w : world) (path : string) (block_size : Z) :
  0 < block_size ->
  hash_file_with w path block_size = Sha1.hexdigest <$> read_bytes w path.
Proof.
  intros Hpos. unfold hash_file_with.
  destruct (read_bytes w path) as [content|]; [|done].
  rewrite (read_loop_feeds_all _ Hpos) by lia. done.
Qed.

Lemma hash_file_spec (w : world) (path : string) :
  hash_file w path = Sha1.hexdigest <$> read_bytes w path.
Proof. apply hash_file_with_spec. unfold block_size_default. lia. Qed.

Lemma hash_file_truthy (w : world) (path h : string) :
  hash_file w path = Some h -> PyStr.truthy h = true.
Proof.
  rewrite hash_file_spec. destruct (read_bytes w path); [|done].
  intros [= <-]. apply hexdigest_truthy.
Qed.

(** ** The two loops of [main] *)

Lemma omap_cons_case {A B : Type} (g : A -> option B) (x : A) (l : list A) :
  omap g (x :: l)
  = match g x with Some y => y :: omap g l | None => omap g l end.
Proof. reflexivity. Qed.

Section Loops.

Variable py_round : spec_float -> Z -> spec_float.
Variable w : world.

Lemma master_step_frame (master : string) (st : state) (f : string) :
  detailed (master_step w master st f) = detailed st
  /\ summary (master_step w master st f) = summary st
  /\ hash_errors (master_step w master st f) = hash_errors st.
Proof.
  unfold master_step.
  destruct (PyStr.startswith f master); [|done].
  destruct (hash_file w f) as [h|]; [|done].
  destruct (PyStr.truthy h); done.
Qed.

Lemma build_master_index_frame (master : string) (files : list string) :
  forall st : state,
    detailed (build_master_index w master files st) = detailed st
    /\ summary (build_master_index w master files st) = summary st
    /\ hash_errors (build_master_index w master files st) = hash_errors st.
Proof.
  unfold build_master_index.
  induction files as [|f files IH]; intros st; [done|].
  simpl. destruct (IH (master_step w master st f)) as (-> & -> & ->).
  apply master_step_frame.
Qed.

(** The keys of the index after the first loop: those it had, and the
    digests of the files whose path starts with the first argument. *)
Lemma build_master_index_keys (master : string) (files : list string) (h : string) :
  forall st : state,
    is_Some (master_hashes (build_master_index w master files st) !! h)
    <-> is_Some (master_hashes st !! h)
        \/ exists f, f ∈ files /\ PyStr.startswith f master = true
                     /\ hash_file w f = Some h.
Proof.
  unfold build_master_index.
  induction files as [|f files IH]; intros st; simpl.
  - split; [by left|]. intros [?|(f & Hf & _)]; [done|]. by apply elem_of_nil in Hf.
  - rewrite IH. clear IH. unfold master_step.
    destruct (PyStr.startswith f master) eqn:Hpre.
    + destruct (hash_file w f) as [hx|] eqn:Hh.
      * rewrite (hash_file_truthy _ _ _ Hh). cbn [set_master_hash log master_hashes].
        rewrite lookup_insert. split.
        -- intros [Hm|(g & Hg & Hp & Hhg)].
           ++ case_decide as Heq; [|by left].
              subst hx. right. exists f. split; [left|done].
           ++ right. exists g. split; [by right|done].
        -- intros [Hm|(g & Hg & Hp & Hhg)].
           ++ left. case_decide; [by eexists|done].
           ++ apply elem_of_cons in Hg as [->|Hg].
              ** left. rewrite Hh in Hhg. injection Hhg as ->.
                 rewrite decide_True by done. by eexists.
              ** right. by exists g.
      * cbn [log master_hashes]. split.
        -- intros [Hm|(g & Hg & Hp & Hhg)]; [by left|].
           right. exists g. split; [by right|done].
        -- intros [Hm|(g & Hg & Hp & Hhg)]; [by left|].
           apply elem_of_cons in Hg as [->|Hg]; [congruence|].
           right. by exists g.
    + split.
      * intros [Hm|(g & Hg & Hp & Hhg)]; [by left|].
        right. exists g. split; [by right|done].
      * intros [Hm|(g & Hg & Hp & Hhg)]; [by left|].
        apply elem_of_cons in Hg as [->|Hg]; [congruence|].
        right. by exists g.
Qed.

(** The events of the first loop: no membership test, and one insertion
    for each file under the prefix test that hashes, and no other. *)
Lemma build_master_index_trace (master : string) (files : list string) :
  forall st : state,
    exists t : list event,
      trace (build_master_index w master files st) = trace st ++ t
      /\ Forall (fun e => is_test e = false) t
      /\ (forall f h, f ∈ files -> PyStr.startswith f master = true ->
                      hash_file w f = Some h -> Inserted h f ∈ t)
      /\ (forall f h, Inserted h f ∈ t ->
                      f ∈ files /\ PyStr.startswith f master = true
                      /\ hash_file w f = Some h)
      /\ master_hashes (build_master_index w master files st)
         = replay_inserts t (master_hashes st).
Proof.
  unfold build_master_index.
  induction files as [|f files IH]; intros st; simpl.
  - exists []. rewrite app_nil_r. split_and!; [done|constructor|..|done].
    + intros f h Hf. by apply elem_of_nil in Hf.
    + intros f h Hf. by apply elem_of_nil in Hf.
  - destruct (IH (master_step w master st f))
      as (t & Ht & Hnt & Hall & Honly & Hidx).
    clear IH. rewrite Ht, Hidx. clear Ht Hidx. unfold master_step.
    destruct (PyStr.startswith f master) eqn:Hpre.
    + destruct (hash_file w f) as [hx|] eqn:Hh.
      * rewrite (hash_file_truthy _ _ _ Hh).
        cbn [set_master_hash log trace master_hashes].
        exists (Hashed f (Some hx) :: Inserted hx f :: t).
        rewrite <- !app_assoc. split_and!; [done|by repeat constructor|..|done].
        -- intros g h Hg Hp Hhg. apply elem_of_cons in Hg as [->|Hg].
           ++ rewrite Hh in Hhg. injection Hhg as ->. right. left.
           ++ do 2 right. by apply Hall.
        -- intros g h Hin.
           apply elem_of_cons in Hin as [Hin|Hin]; [done|].
           apply elem_of_cons in Hin as [Hin|Hin].
           ++ injection Hin as -> ->. split; [left|done].
           ++ destruct (Honly _ _ Hin) as (? & ? & ?). split; [by right|done].
      * cbn [log trace master_hashes]. exists (Hashed f None :: t).
        rewrite <- !app_assoc. split_and!; [done|by repeat constructor|..|done].
        -- intros g h Hg Hp Hhg. apply elem_of_cons in Hg as [->|Hg]; [congruence|].
           right. by apply Hall.
        -- intros g h Hin. apply elem_of_cons in Hin as [Hin|Hin]; [done|].
           destruct (Honly _ _ Hin) as (? & ? & ?). split; [by right|done].
    + exists t. split_and!; [done|done|..|done].
      * intros g h Hg Hp Hhg. apply elem_of_cons in Hg as [->|Hg]; [congruence|].
        by apply Hall.
      * intros g h Hin.
        destruct (Honly _ _ Hin) as (? & ? & ?). split; [by right|done].
Qed.

Lemma make_entry_fields (index : gmap string string) (f h : string) :
  source_path (make_entry py_round w index f h) = f
  /\ hash (make_entry py_round w index f h) = h
  /\ in_master (make_entry py_round w index f h)
     = bool_decide (is_Some (index !! h))
  /\ recommended_action (make_entry py_round w index f h)
     = (if bool_decide (is_Some (index !! h))
        then "EXISTS_IN_MASTER" else "NEW_IN_MASTER").
Proof.
  unfold make_entry. by destruct (get_bitrate_and_duration w f).
Qed.

(** The second loop: the index is only read; every file that hashes
    gets one entry, made against the index the loop started with; every
    other file goes to the hash errors. *)
Lemma analyze_all_spec (files : list string) :
  forall st : state,
    master_hashes (analyze_all py_round w files st) = master_hashes st
    /\ detailed (analyze_all py_round w files st)
       = detailed st
         ++ omap (fun f => make_entry py_round w (master_hashes st) f
                             <$> hash_file w f) files
    /\ hash_errors (analyze_all py_round w files st)
       = hash_errors st ++ filter (fun f => hash_file w f = None) files.
Proof.
  unfold analyze_all.
  induction files as [|f files IH]; intros st; simpl.
  - by rewrite !app_nil_r.
  - destruct (IH (analyze_step py_round w st f)) as (-> & -> & ->). clear IH.
    unfold analyze_step.
    destruct (hash_file w f) as [h|] eqn:Hh.
    + cbn [add_entry log master_hashes detailed hash_errors fmap option_fmap
           option_map].
      rewrite filter_cons_False by congruence.
      by rewrite <- app_assoc.
    + cbn [add_hash_error log master_hashes detailed hash_errors fmap
           option_fmap option_map].
      rewrite filter_cons_True by congruence.
      by rewrite <- app_assoc.
Qed.

(** The events of the second loop: no insertion, and each membership
    test is made on the index the loop started with. *)
Lemma analyze_all_trace (files : list string) :
  forall st : state,
    exists t : list event,
      trace (analyze_all py_round w files st) = trace st ++ t
      /\ Forall (fun e => is_insert e = false) t
      /\ (forall f h index r, Tested f h index r ∈ t ->
            index = master_hashes st
            /\ r = bool_decide (is_Some (master_hashes st !! h))
            /\ f ∈ files /\ hash_file w f = Some h)
      /\ (forall f h, f ∈ files -> hash_file w f = Some h ->
            Tested f h (master_hashes st)
              (bool_decide (is_Some (master_hashes st !! h))) ∈ t).
Proof.
  unfold analyze_all.
  induction files as [|f files IH]; intros st; simpl.
  - exists []. rewrite app_nil_r. split_and!; [done|constructor|..].
    + intros f h index r Hin. by apply elem_of_nil in Hin.
    + intros f h Hin. by apply elem_of_nil in Hin.
  - destruct (IH (analyze_step py_round w st f)) as (t & Ht & Hni & Hobs & Hall).
    clear IH. rewrite Ht. clear Ht.
    assert (Hm : master_hashes (analyze_step py_round w st f) = master_hashes st).
    { unfold analyze_step. by destruct (hash_file w f). }
    rewrite Hm in Hobs, Hall. clear Hm.
    unfold analyze_step.
    destruct (hash_file w f) as [h|] eqn:Hh.
    + destruct (make_entry_fields (master_hashes st) f h) as (_ & _ & Hin & _).
      cbn [add_entry log trace master_hashes]. rewrite Hin.
      eexists (Hashed f (Some h) :: Tested f h _ _ :: t).
      rewrite <- !app_assoc. split_and!; [done|by repeat constructor|..].
      * intros g h' index r HT.
        apply elem_of_cons in HT as [HT|HT]; [done|].
        apply elem_of_cons in HT as [HT|HT].
        -- injection HT as -> -> -> ->. split_and!; [done|done|left|done].
        -- destruct (Hobs _ _ _ _ HT) as (? & ? & ? & ?).
           split_and!; [done|done|by right|done].
      * intros g h' Hg Hhg. apply elem_of_cons in Hg as [->|Hg].
        -- rewrite Hh in Hhg. injection Hhg as ->. right. left.
        -- do 2 right. by apply Hall.
    + cbn [add_hash_error log trace]. exists (Hashed f None :: t).
      rewrite <- !app_assoc. split_and!; [done|by repeat constructor|..].
      * intros g h' index r HT.
        apply elem_of_cons in HT as [HT|HT]; [done|].
        destruct (Hobs _ _ _ _ HT) as (? & ? & ? & ?).
        split_and!; [done|done|by right|done].
      * intros g h' Hg Hhg. apply elem_of_cons in Hg as [->|Hg]; [congruence|].
        right. by apply Hall.
Qed.

End Loops.

(** ** The run as a whole *)

Section MainProperties.

Variable py_round : spec_float -> Z -> spec_float.
Variable w : world.

(** A call that returns leaves the lists that the function gives. *)
Lemma scan_folder_call_returns (root : string) (st st' : scan_state) :
  scan_folder_call w root st = Returns st' -> st' = scan_folder w root st.
Proof.
  unfold scan_folder_call. destruct (scan_folder_raises w root); [done|].
  by intros [= <-].
Qed.

Lemma scan_optional_call_returns (root : option string) (st st' : scan_state) :
  scan_optional_call w root st = Returns st' -> st' = scan_optional w root st.
Proof.
  unfold scan_optional_call, scan_optional. destruct root as [r|].
  - destruct (PyStr.truthy r); [apply scan_folder_call_returns|by intros [= <-]].
  - by intros [= <-].
Qed.

Lemma scan_all_call_returns (master : string) (musik evo : option string)
  (sc : scan_state) :
  scan_all_call w master musik evo = Returns sc ->
  sc = scan_all w master musik evo.
Proof.
  unfold scan_all_call, scan_all.
  destruct (scan_folder_call w master ([], [])) as [st1|e] eqn:H1; [|done].
  apply scan_folder_call_returns in H1 as ->.
  destruct (scan_optional_call w musik _) as [st2|e] eqn:H2; [|done].
  apply scan_optional_call_returns in H2 as ->.
  apply scan_optional_call_returns.
Qed.

(** A completed run is: the scans, then the first loop, then the second,
    then the reports. *)
Lemma main_completed (argv : list string) (out : reports) (sc : scan_state)
  (st : state) :
  main py_round w argv = Completed out sc st ->
  exists prog master rest,
    argv = prog :: master :: rest
    /\ sc = scan_all w master (rest !! 0%nat) (rest !! 1%nat)
    /\ st = analyze_all py_round w sc.1
              (build_master_index w master sc.1 initial_state)
    /\ out = write_reports master sc.2 st.
Proof.
  unfold main. destruct argv as [|prog [|master rest]]; [done|done|].
  destruct (scan_all_call w master (rest !! 0%nat) (rest !! 1%nat))
    as [scan|e] eqn:Hcall; [|done].
  apply scan_all_call_returns in Hcall.
  destruct scan as [all_files errors].
  intros [= <- <- <-]. by exists prog, master, rest.
Qed.

(** The index after the run holds a digest exactly when some file of
    [all_files] whose path starts with the first argument has it. *)
Lemma main_index_keys (argv : list string) (master : string) (out : reports)
  (sc : scan_state) (st : state) (h : string) :
  main py_round w argv = Completed out sc st ->
  argv !! 1%nat = Some master ->
  is_Some (master_hashes st !! h)
  <-> exists f, f ∈ sc.1 /\ PyStr.startswith f master = true
                /\ hash_file w f = Some h.
Proof.
  intros Hmain Harg.
  destruct (main_completed _ _ _ _ Hmain) as (prog & m & rest & -> & _ & -> & _).
  injection Harg as ->.
  destruct (analyze_all_spec py_round w sc.1
              (build_master_index w master sc.1 initial_state)) as (-> & _).
  rewrite build_master_index_keys. cbn [initial_state master_hashes].
  rewrite lookup_empty. split; [|by right].
  intros [[? ?]|?]; done.
Qed.

(** A file of [all_files] whose path starts with the first argument and
    that hashes is reported as being in the master. *)
Lemma main_prefixed_file_in_master (argv : list string) (master : string)
  (out : reports) (sc : scan_state) (st : state) (f h : string) :
  main py_round w argv = Completed out sc st ->
  argv !! 1%nat = Some master ->
  f ∈ sc.1 -> PyStr.startswith f master = true -> hash_file w f = Some h ->
  exists e, e ∈ json_files (report_json out)
            /\ source_path e = f /\ in_master e = true
            /\ recommended_action e = "EXISTS_IN_MASTER".
Proof.
  intros Hmain Harg Hf Hpre Hh.
  assert (Hkey : is_Some (master_hashes st !! h)).
  { rewrite (main_index_keys _ _ _ _ _ _ Hmain Harg). by exists f. }
  destruct (main_completed _ _ _ _ Hmain) as (prog & m & rest & -> & _ & Hst & ->).
  destruct (analyze_all_spec py_round w sc.1
              (build_master_index w m sc.1 initial_state)) as (Hm & Hd & _).
  rewrite <- Hst in Hm, Hd.
  destruct (build_master_index_frame w m sc.1 initial_state) as (Hd0 & _).
  rewrite Hd0 in Hd. cbn [initial_state detailed] in Hd.
  cbn [write_reports report_json json_files]. rewrite Hd, app_nil_l.
  exists (make_entry py_round w (master_hashes st) f h).
  destruct (make_entry_fields py_round w (master_hashes st) f h)
    as (Hsrc & _ & Hin & Hrec).
  rewrite bool_decide_eq_true_2 in Hin, Hrec by done.
  split_and!; [|done..].
  rewrite <- Hm. apply list_elem_of_omap. exists f. by rewrite Hh.
Qed.

(** X17: in every completed run the trace of the operations on
    [master_hashes] is a first part without any membership test followed
    by a second part without any insertion.  The first part holds an
    insertion for exactly the files of [all_files] whose path starts with
    the first argument and that hash, and the index at the end of the run
    is the dictionary that the insertions of the first part make from the
    empty one, so that a digest is a key of it exactly when the first part
    inserts it.  Every membership test is made on that index, the one of
    the end of the run, and answers whether the digest is a key of it. *)
Theorem X17_tests_observe_the_finished_index (argv : list string)
  (master : string) (out : reports) (sc : scan_state) (st : state) :
  main py_round w argv = Completed out sc st ->
  argv !! 1%nat = Some master ->
  exists t_build t_analyze : list event,
    trace st = t_build ++ t_analyze
    /\ Forall (fun e => is_test e = false) t_build
    /\ Forall (fun e => is_insert e = false) t_analyze
    /\ (forall f h, Inserted h f ∈ t_build
                    <-> f ∈ sc.1 /\ PyStr.startswith f master = true
                        /\ hash_file w f = Some h)
    /\ master_hashes st = replay_inserts t_build ∅
    /\ (forall h, is_Some (master_hashes st !! h)
                  <-> exists f, Inserted h f ∈ t_build)
    /\ (forall f h index r, Tested f h index r ∈ trace st ->
          index = master_hashes st
          /\ r = bool_decide (is_Some (master_hashes st !! h))).
Proof.
  intros Hmain Harg.
  pose proof (fun h => main_index_keys _ _ _ _ _ h Hmain Harg) as Hkeys.
  destruct (main_completed _ _ _ _ Hmain) as (prog & m & rest & -> & _ & Hst & _).
  injection Harg as ->.
  destruct (build_master_index_trace w master sc.1 initial_state)
    as (tb & Htb & Hnt & Hall & Honly & Hidx).
  destruct (analyze_all_trace py_round w sc.1
              (build_master_index w master sc.1 initial_state))
    as (ta & Hta & Hni & Hobs & _).
  destruct (analyze_all_spec py_round w sc.1
              (build_master_index w master sc.1 initial_state)) as (Hm & _).
  rewrite <- Hst in Hta, Hm. rewrite Htb in Hta. cbn [initial_state trace] in Hta.
  rewrite app_nil_l in Hta. rewrite <- Hm in Hobs, Hidx.
  exists tb, ta. split_and!; [done..| | | |].
  - intros f h. split; [apply Honly|]. intros (? & ? & ?). by apply Hall.
  - exact Hidx.
  - intros h. rewrite (Hkeys h). split.
    + intros (f & Hf & Hp & Hh). exists f. by apply Hall.
    + intros (f & Hin). exists f. by apply Honly.
  - intros f h index r HT. rewrite Hta in HT.
    apply elem_of_app in HT as [HT|HT].
    + rewrite Forall_forall in Hnt. by specialize (Hnt _ HT).
    + destruct (Hobs _ _ _ _ HT) as (? & ? & _). done.
Qed.

Lemma entries_source_paths (index : gmap string string) (files : list string) :
  source_path <$> omap (fun f => make_entry py_round w index f <$> hash_file w f) files
  = filter (fun f => is_Some (hash_file w f)) files.
Proof.
  induction files as [|f files IH]; [done|].
  rewrite omap_cons_case.
  destruct (hash_file w f) as [h|] eqn:Hh; cbn [fmap option_fmap option_map].
  - rewrite filter_cons_True by (rewrite Hh; by eexists).
    rewrite fmap_cons, IH. f_equal.
    by destruct (make_entry_fields py_round w index f h) as (-> & _).
  - rewrite filter_cons_False; [done|]. rewrite Hh. by intros [? ?].
Qed.

(** C5: a file of [all_files] that cannot be read makes [hash_file]
    return [None]; the run then completes all the same, with the path in
    [hash_errors], with no entry for it in the JSON report nor row in the
    CSV report, with neither a membership test nor an insertion for it in
    the trace; and the files that do hash all have their entry, in the
    order of [all_files]. *)
Theorem C5_hash_failure_is_recorded_and_skipped (argv : list string)
  (out : reports) (sc : scan_state) (st : state) (f : string) :
  main py_round w argv = Completed out sc st ->
  f ∈ sc.1 ->
  read_bytes w f = None ->
  hash_file w f = None
  /\ f ∈ hash_errors st
  /\ (forall e, e ∈ json_files (report_json out) -> source_path e <> f)
  /\ (forall r, r ∈ report_detailed_csv out -> csv_source_path r <> f)
  /\ (forall h index r, Tested f h index r ∉ trace st)
  /\ (forall h, Inserted h f ∉ trace st)
  /\ source_path <$> json_files (report_json out)
     = filter (fun g => is_Some (hash_file w g)) sc.1
  /\ hash_errors st = filter (fun g => hash_file w g = None) sc.1.
Proof.
  intros Hmain Hf Hread.
  assert (Hh : hash_file w f = None) by (by rewrite hash_file_spec, Hread).
  destruct (main_completed _ _ _ _ Hmain) as (prog & m & rest & -> & _ & Hst & ->).
  destruct (analyze_all_spec py_round w sc.1
              (build_master_index w m sc.1 initial_state)) as (_ & Hd & He).
  destruct (build_master_index_frame w m sc.1 initial_state) as (Hd0 & _ & He0).
  rewrite <- Hst, Hd0 in Hd. rewrite <- Hst, He0 in He.
  cbn [initial_state detailed hash_errors] in Hd, He.
  rewrite app_nil_l in Hd, He.
  destruct (build_master_index_trace w m sc.1 initial_state)
    as (tb & Htb & Hnt & _ & Honly & _).
  destruct (analyze_all_trace py_round w sc.1
              (build_master_index w m sc.1 initial_state))
    as (ta & Hta & Hni & Hobs & _).
  rewrite <- Hst, Htb in Hta. cbn [initial_state trace] in Hta.
  rewrite app_nil_l in Hta.
  cbn [write_reports report_json json_files report_detailed_csv].
  assert (Hsrc : forall e, e ∈ detailed st -> source_path e <> f).
  { intros e He' <-. rewrite Hd in He'.
    apply list_elem_of_omap in He' as (g & _ & Hg).
    destruct (hash_file w g) as [h|] eqn:Hhg; [|done].
    injection Hg as <-.
    destruct (make_entry_fields py_round w
                (master_hashes (build_master_index w m sc.1 initial_state)) g h)
      as (Hs & _).
    rewrite Hs in Hh. congruence. }
  split_and!.
  - done.
  - rewrite He. apply list_elem_of_filter. done.
  - done.
  - intros r Hr. apply list_elem_of_fmap in Hr as (e & -> & He').
    by apply Hsrc.
  - intros h index r HT. rewrite Hta in HT.
    apply elem_of_app in HT as [HT|HT].
    + rewrite Forall_forall in Hnt. by specialize (Hnt _ HT).
    + destruct (Hobs _ _ _ _ HT) as (_ & _ & _ & ?). congruence.
  - intros h HI. rewrite Hta in HI.
    apply elem_of_app in HI as [HI|HI].
    + destruct (Honly _ _ HI) as (_ & _ & ?). congruence.
    + rewrite Forall_forall in Hni. by specialize (Hni _ HI).
  - rewrite Hd. apply entries_source_paths.
  - done.
Qed.

(** C10: two invocations whose arguments after the program name agree on
    their first three give the same outcome: the same reports (and the
    same lists and trace behind them), or the usage error for both. *)
Theorem C10_arguments_beyond_third_ignored (argv argv' : list string) :
  take 3 (drop 1 argv) = take 3 (drop 1 argv') ->
  main py_round w argv = main py_round w argv'.
Proof.
  intros Hagree.
  destruct argv as [|prog [|master rest]];
    destruct argv' as [|prog' [|master' rest']];
    try done.
  cbn in Hagree. injection Hagree as -> Hrest.
  assert (H0 : rest !! 0%nat = rest' !! 0%nat).
  { destruct rest, rest'; simpl in *; congruence. }
  assert (H1 : rest !! 1%nat = rest' !! 1%nat).
  { destruct rest as [|? [|? ?]], rest' as [|? [|? ?]]; simpl in *; congruence. }
  unfold main. by rewrite H0, H1.
Qed.

End MainProperties.

(** ** The scanner *)

Lemma node_rect_nested (P : node -> Prop)
  (HF : forall a, P (File a))
  (HD : forall entries, List.Forall (fun e => P e.2) entries -> P (Dir entries)) :
  forall n, P n.
Proof.
  fix IH 1. intros [a|entries]; [apply HF|].
  apply HD. induction entries as [|[name child] entries IHe]; constructor.
  - apply IH.
  - apply IHe.
Qed.

(** What one file adds to the two lists does not depend on what they
    hold. *)
Lemma scan_file_app (d : string) (report errors : list string)
  (ent : string * access) :
  scan_file d (report, errors) ent
  = (report ++ (scan_file d ([], []) ent).1,
     errors ++ (scan_file d ([], []) ent).2).
Proof.
  unfold scan_file. destruct ent as [fname a].
  destruct (PyStr.startswith fname "._"); [by rewrite !app_nil_r|].
  destruct (negb _); [by rewrite !app_nil_r|].
  destruct a as [e| |sz]; simpl; rewrite ?app_nil_r; [done..|].
  destruct (0 <? sz); simpl; by rewrite ?app_nil_r.
Qed.

Lemma scan_files_app (d : string) (fs : list (string * access)) :
  forall report errors,
    List.fold_left (scan_file d) fs (report, errors)
    = (report ++ found_in (d, fs), errors ++ errors_in (d, fs)).
Proof.
  unfold found_in, errors_in. simpl.
  induction fs as [|ent fs IH]; intros report errors; simpl.
  - by rewrite !app_nil_r.
  - rewrite scan_file_app, IH. by rewrite <- !app_assoc.
Qed.

Lemma scan_items_app (items : list (string * list (string * access))) :
  forall report errors,
    List.fold_left (fun st item => List.fold_left (scan_file item.1) item.2 st)
      items (report, errors)
    = (report ++ List.flat_map found_in items,
       errors ++ List.flat_map errors_in items).
Proof.
  induction items as [|[d fs] items IH]; intros report errors; simpl.
  - by rewrite !app_nil_r.
  - rewrite scan_files_app, IH. by rewrite <- !app_assoc.
Qed.

(** [scan_folder] only appends: what it adds is what it finds from two
    empty lists. *)
Lemma scan_folder_app (w : world) (root : string) (st : scan_state) :
  scan_folder w root st
  = (st.1 ++ (scan_folder w root ([], [])).1,
     st.2 ++ (scan_folder w root ([], [])).2).
Proof.
  destruct st as [report errors]. unfold scan_folder.
  destruct (tree_at w root) as [tree|]; simpl.
  - by rewrite !scan_items_app.
  - destruct (exists_error w root); simpl; by rewrite ?app_nil_r.
Qed.

Lemma scan_optional_app (w : world) (root : option string) (st : scan_state) :
  scan_optional w root st
  = (st.1 ++ (scan_optional w root ([], [])).1,
     st.2 ++ (scan_optional w root ([], [])).2).
Proof.
  unfold scan_optional. destruct root as [r|].
  - destruct (PyStr.truthy r); [apply scan_folder_app|].
    destruct st. simpl. by rewrite !app_nil_r.
  - destruct st. simpl. by rewrite !app_nil_r.
Qed.

(** The files the walk shows are the files under the tree that are reached
    through kept directories only, each in the directory path that
    [os.path.join] builds on the way down. *)
Lemma os_walk_files (keep : string -> bool) (n : node) :
  forall (top d fname : string) (a : access),
    (exists fs, In (d, fs) (os_walk keep top n) /\ In (fname, a) fs)
    <-> exists dirs,
          In (dirs, fname, a) (files_under n)
          /\ List.Forall (fun x => keep x = true) dirs
          /\ d = List.fold_left PosixPath.join dirs top.
Proof.
  induction n as [a0|entries IH] using node_rect_nested; intros top d fname a.
  - simpl. split; [intros (? & [] & _)|intros (? & [] & _)].
  - rewrite List.Forall_forall in IH. split.
    + intros (fs & Hitem & Hent). cbn [os_walk] in Hitem.
      destruct Hitem as [Hhead|Hsub].
      * injection Hhead as <- <-.
        apply in_flat_map in Hent as ([name child] & He & Hc).
        destruct child as [a1|sub]; simpl in Hc; [|done].
        destruct Hc as [[= -> ->]|[]].
        exists []. split_and!; [|constructor|done].
        cbn [files_under]. apply in_flat_map.
        exists (fname, File a). split; [done|]. by left.
      * apply in_flat_map in Hsub as ([name child] & He & Hc).
        destruct child as [a1|sub]; simpl in Hc; [done|].
        destruct (keep name) eqn:Hkeep; [|done].
        destruct (proj1 (IH _ He (PosixPath.join top name) d fname a))
          as (dirs & Hin & Hk & ->); [by exists fs|].
        exists (name :: dirs). split_and!; [|by constructor|done].
        cbn [files_under]. apply in_flat_map.
        exists (name, Dir sub). split; [done|].
        simpl. apply in_map_iff. by exists (dirs, fname, a).
    + intros (dirs & Hin & Hk & ->). cbn [files_under] in Hin.
      apply in_flat_map in Hin as ([name child] & He & Hc).
      destruct child as [a1|sub]; simpl in Hc.
      * destruct Hc as [[= <- <- <-]|[]].
        eexists. split; [left; reflexivity|].
        apply in_flat_map. exists (name, File a1). split; [done|]. by left.
      * apply in_map_iff in Hc as ([[dirs' fname'] a'] & [= <- <- <-] & Hin').
        apply List.Forall_cons_iff in Hk as [Hkn Hk].
        destruct (proj2 (IH _ He (PosixPath.join top name)
                           (List.fold_left PosixPath.join dirs'
                              (PosixPath.join top name)) fname' a'))
          as (fs & Hitem & Hent); [by exists dirs'|].
        exists fs. split; [|done]. cbn [os_walk]. right.
        apply in_flat_map. exists (name, Dir sub). split; [done|].
        simpl. by rewrite Hkn.
Qed.

(** What one file entry makes the scanner report, and what it makes it
    record as an error. *)
Lemma scan_file_found (d fname : string) (a : access) (p : string) :
  In p (scan_file d ([], []) (fname, a)).1
  <-> audio_name fname (PosixPath.truediv (PosixPath.Path d) fname)
      /\ exists sz, a = IsFile sz /\ 0 < sz
                    /\ p = PosixPath.str (PosixPath.truediv (PosixPath.Path d) fname).
Proof.
  unfold scan_file, audio_name.
  destruct (PyStr.startswith fname "._").
  { simpl. split; [done|]. by intros [[? _] _]. }
  case_bool_decide as Hext; simpl.
  - destruct a as [e| |sz]; simpl.
    + split; [done|]. by intros (_ & sz & ? & _).
    + split; [done|]. by intros (_ & sz & ? & _).
    + destruct (Z.ltb_spec 0 sz) as [Hsz|Hsz]; simpl.
      * split.
        -- intros [<-|[]]. split; [done|]. by exists sz.
        -- intros (_ & sz' & [= <-] & _ & ->). by left.
      * split; [done|]. intros (_ & sz' & [= <-] & ? & _). lia.
  - split; [done|]. by intros [[_ ?] _].
Qed.

Lemma scan_file_error (d fname : string) (a : access) (msg : string) :
  In msg (scan_file d ([], []) (fname, a)).2
  <-> audio_name fname (PosixPath.truediv (PosixPath.Path d) fname)
      /\ exists e, a = AccessError e
                   /\ msg = "Cannot access: "
                            +:+ PosixPath.str (PosixPath.truediv (PosixPath.Path d) fname)
                            +:+ " - " +:+ e.
Proof.
  unfold scan_file, audio_name.
  destruct (PyStr.startswith fname "._").
  { simpl. split; [done|]. by intros [[? _] _]. }
  case_bool_decide as Hext; simpl.
  - destruct a as [e| |sz]; simpl.
    + split.
      * intros [<-|[]]. split; [done|]. by exists e.
      * intros (_ & e' & [= <-] & ->). by left.
    + split; [done|]. by intros (_ & e & ? & _).
    + destruct (0 <? sz); simpl; (split; [done|]); by intros (_ & e & ? & _).
  - split; [done|]. by intros [[_ ?] _].
Qed.

(** C7, as stated, fails: a regular audio file of positive size under the
    root is not in the output of the scanner when it lies in a hidden
    directory, since the walk never enters that directory. *)
Lemma C7_hidden_directory_not_scanned :
  ~ (forall (w : world) (root : string) (tree : node),
       tree_at w root = Some tree ->
       forall p : string,
         p ∈ (scan_folder w root ([], [])).1
         <-> exists dirs fname sz,
               In (dirs, fname, IsFile sz) (files_under tree)
               /\ audio_name fname
                    (path_below (PosixPath.str (PosixPath.Path root)) dirs fname)
               /\ 0 < sz
               /\ p = PosixPath.str
                        (path_below (PosixPath.str (PosixPath.Path root)) dirs fname)).
Proof.
  intros Hclaim.
  specialize (Hclaim hidden_dir "/music" _ eq_refl "/music/.cache/a.mp3").
  assert (Hnone : (scan_folder hidden_dir "/music" ([], [])).1 = [])
    by (vm_compute; reflexivity).
  rewrite Hnone in Hclaim. apply (not_elem_of_nil "/music/.cache/a.mp3").
  apply Hclaim. exists [".cache"], "a.mp3", 1.
  split_and!; [by left| |lia|by vm_compute].
  split; [by vm_compute|].
  change (".mp3" ∈ AUDIO_EXT). unfold AUDIO_EXT. set_solver.
Qed.

(** C7, amended: the output of the scanner holds exactly the regular files
    under the root that are reached through directories whose names neither
    start with a dot nor end in [.localized] (whatever the case), whose
    name does not start with [._], whose extension in lower case is one of
    the seven audio extensions and whose size is positive; and its errors
    are exactly one message for each file so reached, of such a name and
    extension, at which the check raises. *)
Theorem C7_scanner_output (w : world) (root : string) (tree : node) :
  tree_at w root = Some tree ->
  (forall p : string,
     p ∈ (scan_folder w root ([], [])).1
     <-> exists dirs fname sz,
           In (dirs, fname, IsFile sz) (files_under tree)
           /\ List.Forall (fun d => keep_dir d = true) dirs
           /\ audio_name fname
                (path_below (PosixPath.str (PosixPath.Path root)) dirs fname)
           /\ 0 < sz
           /\ p = PosixPath.str
                    (path_below (PosixPath.str (PosixPath.Path root)) dirs fname))
  /\ (forall msg : string,
        msg ∈ (scan_folder w root ([], [])).2
        <-> exists dirs fname e,
              In (dirs, fname, AccessError e) (files_under tree)
              /\ List.Forall (fun d => keep_dir d = true) dirs
              /\ audio_name fname
                   (path_below (PosixPath.str (PosixPath.Path root)) dirs fname)
              /\ msg = "Cannot access: "
                       +:+ PosixPath.str
                             (path_below (PosixPath.str (PosixPath.Path root))
                                dirs fname)
                       +:+ " - " +:+ e).
Proof.
  intros Hroot. unfold scan_folder. rewrite Hroot, scan_items_app. simpl.
  set (top := PosixPath.str (PosixPath.Path root)). unfold path_below.
  split.
  - intros p. rewrite list_elem_of_In, in_flat_map. split.
    + intros ([d fs] & Hitem & Hp). unfold found_in in Hp. simpl in Hp.
      apply in_flat_map in Hp as ([fname a] & Hent & Hp).
      apply scan_file_found in Hp as (Hname & sz & -> & Hsz & ->).
      destruct (proj1 (os_walk_files keep_dir tree top d fname (IsFile sz)))
        as (dirs & Hin & Hk & ->); [by exists fs|].
      by exists dirs, fname, sz.
    + intros (dirs & fname & sz & Hin & Hk & Hname & Hsz & ->).
      destruct (proj2 (os_walk_files keep_dir tree top
                         (List.fold_left PosixPath.join dirs top) fname (IsFile sz)))
        as (fs & Hitem & Hent); [by exists dirs|].
      eexists. split; [exact Hitem|]. unfold found_in. simpl.
      apply in_flat_map. exists (fname, IsFile sz). split; [done|].
      apply scan_file_found. split; [done|]. by exists sz.
  - intros msg. rewrite list_elem_of_In, in_flat_map. split.
    + intros ([d fs] & Hitem & Hp). unfold errors_in in Hp. simpl in Hp.
      apply in_flat_map in Hp as ([fname a] & Hent & Hp).
      apply scan_file_error in Hp as (Hname & e & -> & ->).
      destruct (proj1 (os_walk_files keep_dir tree top d fname (AccessError e)))
        as (dirs & Hin & Hk & ->); [by exists fs|].
      by exists dirs, fname, e.
    + intros (dirs & fname & e & Hin & Hk & Hname & ->).
      destruct (proj2 (os_walk_files keep_dir tree top
                         (List.fold_left PosixPath.join dirs top) fname
                         (AccessError e)))
        as (fs & Hitem & Hent); [by exists dirs|].
      eexists. split; [exact Hitem|]. unfold errors_in. simpl.
      apply in_flat_map. exists (fname, AccessError e). split; [done|].
      apply scan_file_error. split; [done|]. by exists e.
Qed.

(** X18: for a root without a tree of which [exists()] answers [False],
    the call of [scan_folder] returns, leaves the list of paths as it is
    and appends one error message; and the other roots of the run are
    scanned all the same: with such a root in the first, second or third
    place, the scans find the files they find without it, and have one
    error more. *)
Theorem X18_missing_root_is_recorded (w : world) (root : string) :
  tree_at w root = None ->
  exists_error w root = None ->
  (forall st : scan_state,
     scan_folder_call w root st
     = Returns (st.1, st.2 ++ [ "Path not found: " +:+ root ])
     /\ scan_folder w root st = (st.1, st.2 ++ [ "Path not found: " +:+ root ]))
  /\ (forall musik evo : option string,
        (scan_all w root musik evo).1
        = (scan_optional w evo (scan_optional w musik ([], []))).1
        /\ List.length (scan_all w root musik evo).2
           = S (List.length (scan_optional w evo (scan_optional w musik ([], []))).2))
  /\ (PyStr.truthy root = true ->
      forall (master : string) (other : option string),
        ((scan_all w master (Some root) other).1 = (scan_all w master None other).1
         /\ List.length (scan_all w master (Some root) other).2
            = S (List.length (scan_all w master None other).2))
        /\ ((scan_all w master other (Some root)).1 = (scan_all w master other None).1
            /\ List.length (scan_all w master other (Some root)).2
               = S (List.length (scan_all w master other None).2))).
Proof.
  intros Hroot Herr.
  assert (Hscan : forall st : scan_state,
             scan_folder w root st = (st.1, st.2 ++ [ "Path not found: " +:+ root ])).
  { intros st. unfold scan_folder. by rewrite Hroot, Herr. }
  split_and!.
  - intros st. split; [|apply Hscan].
    unfold scan_folder_call, scan_folder_raises.
    by rewrite Hroot, Herr, Hscan.
  - intros musik evo. unfold scan_all. rewrite Hscan. simpl.
    rewrite (scan_optional_app w musik ([], _)). simpl.
    rewrite (scan_optional_app w evo (_, _)). simpl.
    rewrite (scan_optional_app w evo (scan_optional w musik ([], []))).
    simpl. split; [done|]. rewrite !length_app. simpl. lia.
  - intros Htruthy master other. unfold scan_all.
    cbn [scan_optional]. rewrite Htruthy, !Hscan. simpl. split.
    + rewrite (scan_optional_app w other (_, _)). simpl.
      rewrite (scan_optional_app w other (scan_folder w master ([], []))).
      simpl. split; [done|]. rewrite !length_app. simpl. lia.
    + split; [done|]. rewrite length_app. simpl. lia.
Qed.

(** C9 at a root that does not exist and whose name is longer than a file
    name may be: nothing lies at the root, [root.exists()] raises, the
    call of [scan_folder] raises with it, and the run ends there, whether
    the root is the first, the second or the third argument: no error is
    recorded, the roots after it are not scanned, and the files that the
    stick [/usb] holds are never looked at.  Without that root the same
    run completes with the four audio files that the scan of the stick
    finds. *)
Theorem C9_root_that_cannot_be_examined_aborts_the_run
  (py_round : spec_float -> Z -> spec_float) :
  String.length long_name = 300%nat
  /\ tree_at unreachable_root long_name = None
  /\ scan_folder_call unreachable_root long_name ([], []) = Raises name_too_long
  /\ main py_round unreachable_root [ "audio_sync.py"; long_name; "/usb" ]
     = Aborted name_too_long
  /\ main py_round unreachable_root [ "audio_sync.py"; "/usb"; long_name ]
     = Aborted name_too_long
  /\ main py_round unreachable_root [ "audio_sync.py"; "/usb"; "/usb"; long_name ]
     = Aborted name_too_long
  /\ (completed_scan (main py_round unreachable_root [ "audio_sync.py"; "/usb" ])).1
     = [ "/usb/b.mp3"; "/usb/c.mp3"; "/usb/d.mp3"; "/usb/live/f.MP3" ].
Proof. split_and!; by vm_compute. Qed.

(** ** The quality rank *)

(** C2: [compute_quality_rank] is a function of the extension and the
    bitrate alone; whatever the bitrate, [None] included, it is 1 for
    [.wav], [.aif] and [.aiff] and 2 for [.flac]; for every other
    extension it is 9999 without a bitrate, 3 from 320 on, 4 from 256 on,
    5 from 192 on and 6 below. *)
Theorem C2_compute_quality_rank (ext : string) (bitrate : option Z) :
  (ext = ".wav" \/ ext = ".aif" \/ ext = ".aiff" ->
   compute_quality_rank ext bitrate = 1)
  /\ (ext = ".flac" -> compute_quality_rank ext bitrate = 2)
  /\ (ext <> ".wav" -> ext <> ".aif" -> ext <> ".aiff" -> ext <> ".flac" ->
      match bitrate with
      | None => compute_quality_rank ext bitrate = 9999
      | Some b =>
          (320 <= b -> compute_quality_rank ext bitrate = 3)
          /\ (256 <= b < 320 -> compute_quality_rank ext bitrate = 4)
          /\ (192 <= b < 256 -> compute_quality_rank ext bitrate = 5)
          /\ (b < 192 -> compute_quality_rank ext bitrate = 6)
      end).
Proof.
  unfold compute_quality_rank. split_and!.
  - intros [ -> | [ -> | -> ] ]; reflexivity.
  - intros ->. reflexivity.
  - intros Hwav Haif Haiff Hflac.
    apply String.eqb_neq in Hwav, Haif, Haiff, Hflac.
    rewrite Hwav, Haif, Haiff, Hflac. simpl.
    destruct bitrate as [b|]; [|done].
    split_and!; intros Hb;
      repeat match goal with
             | |- context [?x <=? ?y] => destruct (Z.leb_spec x y); try lia
             end; reflexivity.
Qed.

(** ** The metadata *)

Lemma round_div_nearest (n d : Z) :
  0 < d ->
  2 * Z.abs (d * round_div n d - n) <= d
  /\ (2 * Z.abs (d * round_div n d - n) = d -> Z.even (round_div n d) = true).
Proof.
  intros Hd. unfold round_div.
  pose proof (Z.div_mod n d ltac:(lia)) as Hdm.
  pose proof (Z.mod_pos_bound n d Hd) as Hr.
  set (q := n / d) in *. set (r := n mod d) in *.
  destruct (Z.ltb_spec (2 * r) d) as [H1|H1].
  - split; [lia|]. lia.
  - destruct (Z.ltb_spec d (2 * r)) as [H2|H2].
    + split; [lia|]. lia.
    + destruct (Z.even q) eqn:Hq.
      * split; [lia|done].
      * split; [lia|]. intros _. rewrite Z.even_add, Hq. reflexivity.
Qed.

(** The nearest integer, even at a tie, is one integer only. *)
Lemma nearest_even_unique (n d k k' : Z) :
  0 < d ->
  2 * Z.abs (d * k - n) <= d -> (2 * Z.abs (d * k - n) = d -> Z.even k = true) ->
  2 * Z.abs (d * k' - n) <= d -> (2 * Z.abs (d * k' - n) = d -> Z.even k' = true) ->
  k = k'.
Proof.
  intros Hd Hk Hke Hk' Hke'.
  assert (Hclose : -1 <= k - k' <= 1) by nia.
  destruct (Z.eq_dec k k') as [|Hne]; [done|].
  assert (Htie : 2 * Z.abs (d * k - n) = d /\ 2 * Z.abs (d * k' - n) = d) by nia.
  destruct Htie as [Ht Ht'].
  specialize (Hke Ht). specialize (Hke' Ht').
  apply Z.even_spec in Hke as [j Hj]. apply Z.even_spec in Hke' as [j' Hj'].
  lia.
Qed.

Lemma round_div_unique (n d k : Z) :
  0 < d ->
  2 * Z.abs (d * k - n) <= d -> (2 * Z.abs (d * k - n) = d -> Z.even k = true) ->
  k = round_div n d.
Proof.
  intros Hd Hk Hke.
  destruct (round_div_nearest n d Hd) as [Hr Hre].
  by apply (nearest_even_unique n d).
Qed.

(** Below [2^53] the quotient by 1000 has a negative exponent of 9 to 62
    bits, and does not overflow. *)
Lemma true_divide_small (a : Z) :
  0 < a < 2 ^ 53 ->
  exists s, 9 <= s <= 62
            /\ true_divide a 1000 = Some (round_div (a * 2 ^ s) 1000, - s).
Proof.
  intros [Hpos Hlt]. unfold true_divide.
  destruct (Z.eqb_spec a 0) as [|_]; [lia|].
  assert (Hlog : 0 <= Z.log2 a <= 52).
  { split; [apply Z.log2_nonneg|]. apply Z.lt_succ_r.
    by apply Z.log2_lt_pow2. }
  change (Z.log2 1000) with 9.
  set (e0 := Z.log2 a - 9 - 53).
  set (e1 := if 2 ^ 53 <=? _ then e0 + 1 else e0).
  assert (He1 : -62 <= e1 <= -9).
  { subst e1. destruct (_ <=? _); subst e0; lia. }
  clearbody e1. clear e0.
  rewrite Z.max_l by lia.
  destruct (Z.leb_spec 0 e1) as [|_]; [lia|].
  cbn [andb]. exists (- e1). split; [lia|]. by rewrite Z.opp_involutive.
Qed.

(** Rounding the float quotient of a number below [2^53] by 1000 gives the
    rounding of the exact quotient. *)
Lemma round_true_divide_small (n : Z) :
  Z.abs n < 2 ^ 53 -> round_true_divide n 1000 = Some (round_div n 1000).
Proof.
  intros Hn. unfold round_true_divide.
  destruct (Z.eq_dec n 0) as [->|Hne]; [done|].
  destruct (true_divide_small (Z.abs n) ltac:(lia)) as (s & Hs & ->).
  f_equal. unfold round_float.
  destruct (Z.leb_spec 0 (- s)) as [|_]; [lia|]. rewrite Z.opp_involutive.
  set (a := Z.abs n) in *.
  assert (HP : 512 <= 2 ^ s).
  { change 512 with (2 ^ 9). apply Z.pow_le_mono_r; lia. }
  assert (HPeven : exists H, 2 ^ s = 2 * H).
  { exists (2 ^ (s - 1)). rewrite <- Z.pow_succ_r by lia. f_equal. lia. }
  destruct HPeven as (H & HH).
  set (P := 2 ^ s) in *.
  destruct (round_div_nearest (a * P) 1000 ltac:(lia)) as [Hm Hme].
  set (m := round_div (a * P) 1000) in *.
  destruct (round_div_nearest m P ltac:(lia)) as [Hk Hke].
  set (k := round_div m P) in *.
  clearbody m k.
  assert (Hid : (1000 * k - a) * P = 1000 * (P * k - m) + (1000 * m - a * P))
    by ring.
  assert (Hnear : -500 <= 1000 * k - a <= 500) by nia.
  assert (Htie : Z.abs (1000 * k - a) = 500 -> Z.even k = true).
  { intros Ht. apply Hke.
    assert (Hm0 : 1000 * m = a * P) by nia.
    nia. }
  apply round_div_unique; [lia| |].
  - assert (Hs1 : Z.sgn n = 1 \/ Z.sgn n = -1) by lia.
    destruct Hs1 as [Hs1|Hs1]; rewrite Hs1; subst a; lia.
  - intros Ht.
    assert (Hs1 : Z.sgn n = 1 \/ Z.sgn n = -1) by lia.
    destruct Hs1 as [Hs1|Hs1]; rewrite Hs1 in *.
    + rewrite Z.mul_1_l. apply Htie. subst a. lia.
    + replace (-1 * k) with (- k) by lia. rewrite Z.even_opp.
      apply Htie. subst a. lia.
Qed.

(** The quotient of a positive number by 1000, by its exponent: one of the
    two that the binary logarithm of the number allows. *)
Lemma true_divide_exponent (a : Z) :
  0 < a ->
  exists e, Z.log2 a - 62 <= e <= Z.log2 a - 61
            /\ true_divide a 1000
               = (let m := if 0 <=? e then round_div a (1000 * 2 ^ e)
                           else round_div (a * 2 ^ (- e)) 1000 in
                  if (0 <=? e) && (2 ^ 1024 <=? m * 2 ^ e) then None
                  else Some (m, e)).
Proof.
  intros Hpos. unfold true_divide.
  destruct (Z.eqb_spec a 0) as [|_]; [lia|].
  pose proof (Z.log2_nonneg a) as Hlog.
  change (Z.log2 1000) with 9.
  set (e0 := Z.log2 a - 9 - 53).
  set (e1 := if 2 ^ 53 <=? _ then e0 + 1 else e0).
  assert (He1 : Z.log2 a - 62 <= e1 <= Z.log2 a - 61).
  { subst e1. destruct (_ <=? _); subst e0; lia. }
  clearbody e1. clear e0.
  rewrite Z.max_l by lia. by exists e1.
Qed.

(** No overflow below [2^1024]. *)
Lemma true_divide_no_overflow (a : Z) :
  0 <= a < 2 ^ 1024 -> is_Some (true_divide a 1000).
Proof.
  intros [Hnn Hlt].
  destruct (Z.eq_dec a 0) as [->|Hne]; [by eexists|].
  destruct (true_divide_exponent a ltac:(lia)) as (e & He & ->).
  assert (Hlog : Z.log2 a < 1024) by (apply Z.log2_lt_pow2; lia).
  cbv zeta.
  destruct (Z.leb_spec 0 e) as [Hpos|Hneg]; [|by eexists].
  cbn [andb].
  destruct (round_div_nearest a (1000 * 2 ^ e)) as [Hm _]; [lia|].
  set (m := round_div a (1000 * 2 ^ e)) in *. clearbody m.
  assert (HP : 2 ^ e <= 2 ^ 962) by (apply Z.pow_le_mono_r; lia).
  assert (HP0 : 0 < 2 ^ e) by lia.
  set (P := 2 ^ e) in *. clearbody P.
  destruct (Z.leb_spec (2 ^ 1024) (m * P)) as [Hov|]; [|by eexists].
  exfalso.
  assert (H1000 : 1000 * (m * P) <= a + 500 * P) by lia.
  assert (Hbig : 2 ^ 1024 = 2 ^ 62 * 2 ^ 962) by (by rewrite <- Z.pow_add_r).
  lia.
Qed.

(** From [2^53] on the rounded quotient is 320 at least. *)
Lemma true_divide_large (a m e : Z) :
  2 ^ 53 <= a -> true_divide a 1000 = Some (m, e) -> 320 <= round_float m e.
Proof.
  intros Ha Hdiv.
  destruct (true_divide_exponent a ltac:(lia)) as (e' & He & Heq).
  rewrite Heq in Hdiv. clear Heq. cbv zeta in Hdiv.
  assert (Hlog : 53 <= Z.log2 a).
  { change 53 with (Z.log2 (2 ^ 53)). by apply Z.log2_le_mono. }
  assert (Hpow : 2 ^ Z.log2 a <= a) by (apply Z.log2_spec; lia).
  unfold round_float.
  destruct (Z.leb_spec 0 e') as [Hpos|Hneg].
  - cbn [andb] in Hdiv.
    destruct (_ <=? _) in Hdiv; [done|]. injection Hdiv as <- <-.
    destruct (Z.leb_spec 0 e') as [_|]; [|lia].
    destruct (round_div_nearest a (1000 * 2 ^ e')) as [Hm _]; [lia|].
    set (m := round_div a (1000 * 2 ^ e')) in *. clearbody m.
    assert (HP : 2 ^ 61 * 2 ^ e' <= 2 ^ Z.log2 a).
    { rewrite <- Z.pow_add_r by lia. apply Z.pow_le_mono_r; lia. }
    assert (HP0 : 0 < 2 ^ e') by lia.
    set (P := 2 ^ e') in *. clearbody P. nia.
  - cbn [andb] in Hdiv. injection Hdiv as <- <-.
    destruct (Z.leb_spec 0 e') as [|_]; [lia|].
    assert (Hs : 1 <= - e' <= 9) by lia.
    set (s := - e') in *. clearbody s.
    assert (HP : 2 ^ 1 <= 2 ^ s <= 2 ^ 9)
      by (split; apply Z.pow_le_mono_r; lia).
    set (P := 2 ^ s) in *. clearbody P.
    destruct (round_div_nearest (a * P) 1000 ltac:(lia)) as [Hm _].
    set (m := round_div (a * P) 1000) in *. clearbody m.
    destruct (round_div_nearest m P ltac:(lia)) as [Hk _].
    set (k := round_div m P) in *. clearbody k.
    change (2 ^ 1) with 2 in HP. change (2 ^ 9) with 512 in HP.
    change (2 ^ 53) with 9007199254740992 in Ha.
    nia.
Qed.

Lemma round_true_divide_is_Some (n : Z) :
  Z.abs n < 2 ^ 1024 -> is_Some (round_true_divide n 1000).
Proof.
  intros Hn. unfold round_true_divide.
  destruct (true_divide_no_overflow (Z.abs n) ltac:(lia)) as ([m e] & ->).
  by eexists.
Qed.

Lemma round_true_divide_large (n k : Z) :
  2 ^ 53 <= Z.abs n -> round_true_divide n 1000 = Some k ->
  (0 < n -> 320 <= k) /\ (n < 0 -> k <= -320).
Proof.
  intros Hn. unfold round_true_divide.
  destruct (true_divide (Z.abs n) 1000) as [[m e]|] eqn:Hdiv; [|done].
  intros [= <-]. pose proof (true_divide_large _ _ _ Hn Hdiv) as Hk.
  split; intros Hs.
  - rewrite (Z.sgn_pos n) by done. lia.
  - rewrite (Z.sgn_neg n) by done. lia.
Qed.



(** ** Runs on concrete worlds *)

Lemma make_entry_duration (py_round : spec_float -> Z -> spec_float) (w : world)
  (index : gmap string string) (f h : string) :
  duration_sec (make_entry py_round w index f h)
  = match (get_bitrate_and_duration w f).2 with
    | Some d => if float_truthy d then Some (py_round d 2) else None
    | None => None
    end.
Proof. unfold make_entry. by destruct (get_bitrate_and_duration w f). Qed.

(** C1 at a master [/music] beside a second root [/music2]: the file
    [/music2/b.mp3] is found by the scan of the second root and not by the
    scan of the master, whose one file has another digest; yet its digest
    is a key of the index after the run, with its path as the value. *)
Theorem C1_file_of_other_root_enters_index (py_round : spec_float -> Z -> spec_float) :
  let o := main py_round sibling_roots [ "audio_sync.py"; "/music"; "/music2" ] in
  (scan_folder sibling_roots "/music" ([], [])).1 = [ "/music/a.mp3" ]
  /\ (scan_folder sibling_roots "/music2" ([], [])).1 = [ "/music2/b.mp3" ]
  /\ (completed_scan o).1 = [ "/music/a.mp3"; "/music2/b.mp3" ]
  /\ hash_file sibling_roots "/music/a.mp3"
     = Some "6dcd4ce23d88e2ee9568ba546c007c63d9131c1b"
  /\ hash_file sibling_roots "/music2/b.mp3"
     = Some "ae4f281df5a5d0ff3cad6371f76d5c29b6d953ec"
  /\ master_hashes (completed_state o) !! "ae4f281df5a5d0ff3cad6371f76d5c29b6d953ec"
     = Some "/music2/b.mp3".
Proof. intros o. split_and!; by vm_compute. Qed.

(** C3 at a master given as [./music]: the one file of the master root
    is scanned as [music/a.mp3] and hashes; yet the first loop neither
    hashes nor inserts it, its path not starting with [./music], and the
    run makes its membership test on an index that is empty and stays so:
    the trace of the run is the call of [hash_file] of the second loop and
    that test, which answers [False]. *)
Theorem C3_master_file_is_tested_but_never_inserted
  (py_round : spec_float -> Z -> spec_float) :
  let o := main py_round relative_master [ "audio_sync.py"; "./music" ] in
  let h := "6dcd4ce23d88e2ee9568ba546c007c63d9131c1b" in
  (scan_folder relative_master "./music" ([], [])).1 = [ "music/a.mp3" ]
  /\ (completed_scan o).1 = [ "music/a.mp3" ]
  /\ hash_file relative_master "music/a.mp3" = Some h
  /\ PyStr.startswith "music/a.mp3" "./music" = false
  /\ trace (completed_state o)
     = [ Hashed "music/a.mp3" (Some h); Tested "music/a.mp3" h ∅ false ]
  /\ master_hashes (completed_state o) = ∅.
Proof. intros o h. split_and!; by vm_compute. Qed.

(** The two streams of [huge_bitrate]: the first gets the even neighbour
    of its float quotient; the quotient of the second is beyond the floats,
    the division raises, and the duration of two seconds is lost with the
    bitrate, which leaves the MP3 file without a rank. *)
Lemma huge_bitrate_extraction :
  get_bitrate_and_duration huge_bitrate "/music/a.mp3"
  = (Some 17592186044520, Some two_seconds)
  /\ get_bitrate_and_duration huge_bitrate "/music/b.mp3" = (None, None)
  /\ compute_quality_rank ".mp3"
       (get_bitrate_and_duration huge_bitrate "/music/b.mp3").1 = 9999.
Proof. split_and!; by vm_compute. Qed.

(** C4 at a master given as [./music]: its file is scanned as
    [music/a.mp3], hashes, and is reported as not in the master, the index
    being empty. *)
Theorem C4_master_file_reported_new (py_round : spec_float -> Z -> spec_float) :
  let o := main py_round relative_master [ "audio_sync.py"; "./music" ] in
  (completed_scan o).1 = [ "music/a.mp3" ]
  /\ hash_file relative_master "music/a.mp3"
     = Some "6dcd4ce23d88e2ee9568ba546c007c63d9131c1b"
  /\ master_hashes (completed_state o) = ∅
  /\ (fun e => (source_path e, in_master e, recommended_action e))
       <$> json_files (report_json (completed_reports o))
     = [ ("music/a.mp3", false, "NEW_IN_MASTER") ].
Proof. intros o. split_and!; by vm_compute. Qed.

(** C6 at a file whose stream is 0.0 seconds long: the extraction yields
    the duration 0.0 and the record has no duration. *)
Theorem C6_zero_duration_written_as_null (py_round : spec_float -> Z -> spec_float) :
  let o := main py_round silent_track [ "audio_sync.py"; "/music" ] in
  get_bitrate_and_duration silent_track "/music/a.mp3" = (Some 128, Some (S754_zero false))
  /\ (fun e => (source_path e, duration_sec e))
       <$> json_files (report_json (completed_reports o))
     = [ ("/music/a.mp3", None) ].
Proof. intros o. split_and!; by vm_compute. Qed.

(** The ranks of the specification's examples, from the theorem. *)
Lemma C2_compute_quality_rank_witness :
  compute_quality_rank ".aiff" (Some 64) = 1
  /\ compute_quality_rank ".flac" None = 2
  /\ compute_quality_rank ".mp3" None = 9999
  /\ compute_quality_rank ".m4a" (Some 320) = 3
  /\ compute_quality_rank ".aac" (Some 256) = 4
  /\ compute_quality_rank ".mp3" (Some 192) = 5
  /\ compute_quality_rank ".mp3" (Some 128) = 6.
Proof.
  split_and!.
  - apply (C2_compute_quality_rank ".aiff" (Some 64)). by right; right.
  - by apply (C2_compute_quality_rank ".flac" None).
  - by apply (proj2 (proj2 (C2_compute_quality_rank ".mp3" None))).
  - apply (proj2 (proj2 (C2_compute_quality_rank ".m4a" (Some 320)))); [done..|lia].
  - apply (proj2 (proj2 (C2_compute_quality_rank ".aac" (Some 256)))); [done..|lia].
  - apply (proj2 (proj2 (C2_compute_quality_rank ".mp3" (Some 192)))); [done..|lia].
  - apply (proj2 (proj2 (C2_compute_quality_rank ".mp3" (Some 128)))); [done..|lia].
Defined.

(** The ordering theorem at the run on [library]. *)
Lemma X17_tests_observe_the_finished_index_witness :
  let o := main round_id library library_argv in
  exists t_build t_analyze : list event,
    trace (completed_state o) = t_build ++ t_analyze
    /\ Forall (fun e => is_test e = false) t_build
    /\ Forall (fun e => is_insert e = false) t_analyze
    /\ (forall f h, Inserted h f ∈ t_build
                    <-> f ∈ (completed_scan o).1
                        /\ PyStr.startswith f "/master" = true
                        /\ hash_file library f = Some h)
    /\ master_hashes (completed_state o) = replay_inserts t_build ∅
    /\ (forall h, is_Some (master_hashes (completed_state o) !! h)
                  <-> exists f, Inserted h f ∈ t_build)
    /\ (forall f h index r, Tested f h index r ∈ trace (completed_state o) ->
          index = master_hashes (completed_state o)
          /\ r = bool_decide (is_Some (master_hashes (completed_state o) !! h))).
Proof.
  intros o.
  apply (X17_tests_observe_the_finished_index round_id library library_argv
           "/master" (completed_reports o) (completed_scan o) (completed_state o)).
  - subst o. vm_compute. reflexivity.
  - reflexivity.
Defined.

(** The unreadable [/usb/d.mp3] in the run on [library]. *)
Lemma C5_hash_failure_is_recorded_and_skipped_witness :
  let o := main round_id library library_argv in
  hash_file library "/usb/d.mp3" = None
  /\ "/usb/d.mp3" ∈ hash_errors (completed_state o)
  /\ (forall e, e ∈ json_files (report_json (completed_reports o)) ->
                source_path e <> "/usb/d.mp3")
  /\ (forall r, r ∈ report_detailed_csv (completed_reports o) ->
                csv_source_path r <> "/usb/d.mp3")
  /\ (forall h index r, Tested "/usb/d.mp3" h index r ∉ trace (completed_state o))
  /\ (forall h, Inserted h "/usb/d.mp3" ∉ trace (completed_state o))
  /\ source_path <$> json_files (report_json (completed_reports o))
     = filter (fun g => is_Some (hash_file library g)) (completed_scan o).1
  /\ hash_errors (completed_state o)
     = filter (fun g => hash_file library g = None) (completed_scan o).1.
Proof.
  intros o.
  apply (C5_hash_failure_is_recorded_and_skipped round_id library library_argv
           (completed_reports o) (completed_scan o) (completed_state o)
           "/usb/d.mp3").
  - subst o. vm_compute. reflexivity.
  - vm_compute. repeat constructor.
  - reflexivity.
Defined.

(** Two more arguments after [/gone] change nothing. *)
Lemma C10_arguments_beyond_third_ignored_witness :
  main round_id library library_argv
  = main round_id library (library_argv ++ [ "/elsewhere"; "--fast" ]).
Proof.
  apply (C10_arguments_beyond_third_ignored round_id library library_argv
           (library_argv ++ [ "/elsewhere"; "--fast" ])).
  reflexivity.
Defined.

(** The scanner theorem at the root [/usb] of [library]. *)
Lemma C7_scanner_output_witness :
  (forall p : string,
     p ∈ (scan_folder library "/usb" ([], [])).1
     <-> exists dirs fname sz,
           In (dirs, fname, IsFile sz) (files_under usb_tree)
           /\ List.Forall (fun d => keep_dir d = true) dirs
           /\ audio_name fname
                (path_below (PosixPath.str (PosixPath.Path "/usb")) dirs fname)
           /\ 0 < sz
           /\ p = PosixPath.str
                    (path_below (PosixPath.str (PosixPath.Path "/usb")) dirs fname))
  /\ (forall msg : string,
        msg ∈ (scan_folder library "/usb" ([], [])).2
        <-> exists dirs fname e,
              In (dirs, fname, AccessError e) (files_under usb_tree)
              /\ List.Forall (fun d => keep_dir d = true) dirs
              /\ audio_name fname
                   (path_below (PosixPath.str (PosixPath.Path "/usb")) dirs fname)
              /\ msg = "Cannot access: "
                       +:+ PosixPath.str
                             (path_below (PosixPath.str (PosixPath.Path "/usb"))
                                dirs fname)
                       +:+ " - " +:+ e).
Proof.
  apply (C7_scanner_output library "/usb" usb_tree).
  reflexivity.
Defined.


(** The root [/gone] of the run on [library]. *)
Lemma X18_missing_root_is_recorded_witness :
  (forall st : scan_state,
     scan_folder_call library "/gone" st
     = Returns (st.1, st.2 ++ [ "Path not found: /gone" ])
     /\ scan_folder library "/gone" st = (st.1, st.2 ++ [ "Path not found: /gone" ]))
  /\ (scan_all library "/master" (Some "/usb") (Some "/gone")).1
     = (scan_all library "/master" (Some "/usb") None).1
  /\ List.length (scan_all library "/master" (Some "/usb") (Some "/gone")).2
     = S (List.length (scan_all library "/master" (Some "/usb") None).2).
Proof.
  pose proof (X18_missing_root_is_recorded library "/gone" eq_refl eq_refl)
    as (Hscan & _ & Hother).
  split; [exact Hscan|].
  apply (Hother eq_refl "/master" (Some "/usb")).
Defined.

(** * Further properties *)

(** ** The hasher *)

Lemma hex_digit_is_hex (x : Z) : is_hex_digit (Sha1.hex_digit x) = true.
Proof.
  unfold Sha1.hex_digit.
  change 0xF with (Z.ones 4). rewrite Z.land_ones by lia.
  pose proof (Z.mod_pos_bound x (2 ^ 4) ltac:(lia)) as Hb.
  set (n := Z.to_nat (x mod 2 ^ 4)).
  assert (Hn : (n < 16)%nat) by (subst n; lia).
  clearbody n. clear Hb.
  do 16 (destruct n as [|n]; [reflexivity|]). lia.
Qed.

Lemma hexdigest_is_hex (msg : list byte) :
  List.forallb is_hex_digit (list_ascii_of_string (Sha1.hexdigest msg)) = true.
Proof.
  unfold Sha1.hexdigest, Sha1.hex.
  destruct (Sha1.digest _) as [[[[h0 h1] h2] h3] h4].
  cbv [Sha1.hex8 String.append list_ascii_of_string List.forallb].
  rewrite !hex_digit_is_hex. reflexivity.
Qed.

(** X1: with any positive block size [hash_file] returns the SHA-1 digest
    of the whole content of the file, in hexadecimal, or [None] when the
    file cannot be read, and so does the call with the default of 65536
    bytes: two block sizes give the same thing.  The read loop ends: with
    fuel beyond the length of the content it returns, having fed the hash
    object the whole content. *)
Theorem X1_digest_independent_of_block_size (w : world) (path : string)
  (block_size block_size' : Z) :
  0 < block_size -> 0 < block_size' ->
  hash_file_with w path block_size = Sha1.hexdigest <$> read_bytes w path
  /\ hash_file w path = Sha1.hexdigest <$> read_bytes w path
  /\ hash_file_with w path block_size = hash_file_with w path block_size'
  /\ hash_file_with w path block_size = hash_file w path
  /\ (forall (content : list byte) (fuel : nat),
        (List.length content < fuel)%nat ->
        read_loop fuel block_size hashlib.sha1 content
        = Some (hashlib.update hashlib.sha1 content)).
Proof.
  intros Hpos Hpos'.
  rewrite !hash_file_with_spec by done. rewrite hash_file_spec.
  split_and!; [done..|].
  intros content fuel Hfuel. by apply read_loop_feeds_all.
Qed.

(** X2: a digest returned by [hash_file] is made of 40 characters, each
    of them one of [0123456789abcdef]; so the test [if h:] of the first
    loop and the test [h is None] of the second agree on it. *)
Theorem X2_digest_is_forty_hex_digits (w : world) (path h : string) :
  hash_file w path = Some h ->
  String.length h = 40%nat
  /\ List.forallb is_hex_digit (list_ascii_of_string h) = true
  /\ PyStr.truthy h = true.
Proof.
  rewrite hash_file_spec. destruct (read_bytes w path) as [content|]; [|done].
  intros [= <-]. split_and!.
  - apply hexdigest_length.
  - apply hexdigest_is_hex.
  - apply hexdigest_truthy.
Qed.

(** At a file of [library], read one byte and three bytes at a time. *)
Lemma X1_digest_independent_of_block_size_witness :
  hash_file_with library "/usb/b.mp3" 1
  = Sha1.hexdigest <$> read_bytes library "/usb/b.mp3"
  /\ hash_file library "/usb/b.mp3"
     = Sha1.hexdigest <$> read_bytes library "/usb/b.mp3"
  /\ hash_file_with library "/usb/b.mp3" 1 = hash_file_with library "/usb/b.mp3" 3
  /\ hash_file_with library "/usb/b.mp3" 1 = hash_file library "/usb/b.mp3"
  /\ (forall (content : list byte) (fuel : nat),
        (List.length content < fuel)%nat ->
        read_loop fuel 1 hashlib.sha1 content
        = Some (hashlib.update hashlib.sha1 content)).
Proof.
  apply (X1_digest_independent_of_block_size library "/usb/b.mp3" 1 3); lia.
Defined.

(** At a file of [library]. *)
Lemma X2_digest_is_forty_hex_digits_witness :
  String.length "c032adc1ff629c9b66f22749ad667e6beadf144b" = 40%nat
  /\ List.forallb is_hex_digit
       (list_ascii_of_string "c032adc1ff629c9b66f22749ad667e6beadf144b") = true
  /\ PyStr.truthy "c032adc1ff629c9b66f22749ad667e6beadf144b" = true.
Proof.
  apply (X2_digest_is_forty_hex_digits library "/usb/b.mp3").
  vm_compute. reflexivity.
Defined.

(** ** The index and the classification *)

Section Classification.

Variable py_round : spec_float -> Z -> spec_float.
Variable w : world.

(** What a completed run leaves in its lists. *)
Lemma main_lists (argv : list string) (out : reports) (sc : scan_state)
  (st : state) :
  main py_round w argv = Completed out sc st ->
  detailed st
  = omap (fun f => make_entry py_round w (master_hashes st) f <$> hash_file w f) sc.1
  /\ hash_errors st = filter (fun f => hash_file w f = None) sc.1
  /\ json_files (report_json out) = detailed st
  /\ report_detailed_csv out = csv_of <$> detailed st.
Proof.
  intros Hmain.
  destruct (main_completed py_round w _ _ _ _ Hmain) as (prog & m & rest & -> & _ & Hst & ->).
  destruct (analyze_all_spec py_round w sc.1
              (build_master_index w m sc.1 initial_state)) as (Hm & Hd & He).
  destruct (build_master_index_frame w m sc.1 initial_state) as (Hd0 & _ & He0).
  rewrite <- Hst, Hd0 in Hd. rewrite <- Hst, He0 in He. rewrite <- Hst in Hm.
  cbn [initial_state detailed hash_errors] in Hd, He.
  rewrite app_nil_l in Hd, He. rewrite <- Hm in Hd.
  split_and!; done.
Qed.

(** X3: every record of the report carries the digest of its own file;
    it says [in_master] exactly when some scanned file whose path starts
    with the first argument has that digest; and its recommendation is
    [EXISTS_IN_MASTER] when it says so and [NEW_IN_MASTER] when not. *)
Theorem X3_membership_is_by_digest (argv : list string) (master : string)
  (out : reports) (sc : scan_state) (st : state) (e : entry) :
  main py_round w argv = Completed out sc st ->
  argv !! 1%nat = Some master ->
  e ∈ json_files (report_json out) ->
  source_path e ∈ sc.1
  /\ hash_file w (source_path e) = Some (hash e)
  /\ (in_master e = true
      <-> exists g, g ∈ sc.1 /\ PyStr.startswith g master = true
                    /\ hash_file w g = Some (hash e))
  /\ recommended_action e
     = (if in_master e then "EXISTS_IN_MASTER" else "NEW_IN_MASTER").
Proof.
  intros Hmain Harg He.
  destruct (main_lists _ _ _ _ Hmain) as (Hd & _ & Hj & _).
  rewrite Hj, Hd in He.
  apply list_elem_of_omap in He as (f & Hf & Hmake).
  destruct (hash_file w f) as [h|] eqn:Hh; [|done].
  injection Hmake as <-.
  destruct (make_entry_fields py_round w (master_hashes st) f h)
    as (-> & -> & -> & ->).
  split_and!; [done|done| |done].
  rewrite bool_decide_eq_true.
  apply (main_index_keys py_round w _ _ _ _ _ _ Hmain Harg).
Qed.

(** X4: a scanned file with the same bytes as a scanned file whose path
    starts with the first argument is reported as being in the master,
    whatever its own path, name and format are. *)
Theorem X4_copy_of_master_file_exists_in_master (argv : list string)
  (master : string) (out : reports) (sc : scan_state) (st : state)
  (f g : string) (content : list byte) :
  main py_round w argv = Completed out sc st ->
  argv !! 1%nat = Some master ->
  f ∈ sc.1 -> g ∈ sc.1 ->
  PyStr.startswith g master = true ->
  read_bytes w g = Some content ->
  read_bytes w f = Some content ->
  exists e, e ∈ json_files (report_json out)
            /\ source_path e = f /\ in_master e = true
            /\ recommended_action e = "EXISTS_IN_MASTER".
Proof.
  intros Hmain Harg Hf Hg Hpre Hcg Hcf.
  assert (Hhg : hash_file w g = Some (Sha1.hexdigest content))
    by (by rewrite hash_file_spec, Hcg).
  assert (Hhf : hash_file w f = Some (Sha1.hexdigest content))
    by (by rewrite hash_file_spec, Hcf).
  destruct (main_lists _ _ _ _ Hmain) as (Hd & _ & Hj & _).
  exists (make_entry py_round w (master_hashes st) f (Sha1.hexdigest content)).
  destruct (make_entry_fields py_round w (master_hashes st) f
              (Sha1.hexdigest content)) as (Hsrc & _ & Hin & Hrec).
  assert (Hkey : is_Some (master_hashes st !! Sha1.hexdigest content)).
  { apply (main_index_keys py_round w _ _ _ _ _ _ Hmain Harg). by exists g. }
  rewrite bool_decide_eq_true_2 in Hin, Hrec by done.
  split_and!; [|done..].
  rewrite Hj, Hd. apply list_elem_of_omap. exists f. by rewrite Hhf.
Qed.

(** The first loop keeps, for each digest, the path it met last. *)
Lemma build_master_index_last (master : string) (files : list string) (h : string) :
  forall st : state,
    master_hashes (build_master_index w master files st) !! h
    = match last (filter (fun f => selected master f = true
                                   /\ hash_file w f = Some h) files) with
      | Some f => Some f
      | None => master_hashes st !! h
      end.
Proof.
  unfold build_master_index, selected.
  induction files as [|f files IH]; intros st; [done|].
  cbn [List.fold_left]. rewrite IH. clear IH.
  destruct (decide (PyStr.startswith f master = true /\ hash_file w f = Some h))
    as [[Hpre Hh]|Hno].
  - rewrite filter_cons_True by done. rewrite last_cons.
    destruct (last _); [done|].
    unfold master_step. rewrite Hpre, Hh, (hash_file_truthy _ _ _ Hh).
    cbn [set_master_hash log master_hashes]. by rewrite lookup_insert_eq.
  - rewrite filter_cons_False by done.
    destruct (last _); [done|].
    unfold master_step.
    destruct (PyStr.startswith f master) eqn:Hpre; [|done].
    destruct (hash_file w f) as [hx|] eqn:Hh; [|done].
    rewrite (hash_file_truthy _ _ _ Hh).
    cbn [set_master_hash log master_hashes].
    rewrite lookup_insert_ne; [done|]. intros ->. by apply Hno.
Qed.

(** X5: when several scanned files whose path starts with the first
    argument have the same digest, the index keeps the path of the last of
    them in the order of the scan; a digest none of them has is no key. *)
Theorem X5_index_keeps_last_path (argv : list string) (master : string)
  (out : reports) (sc : scan_state) (st : state) (h : string) :
  main py_round w argv = Completed out sc st ->
  argv !! 1%nat = Some master ->
  master_hashes st !! h
  = last (filter (fun f => selected master f = true /\ hash_file w f = Some h) sc.1).
Proof.
  intros Hmain Harg.
  destruct (main_completed py_round w _ _ _ _ Hmain) as (prog & m & rest & -> & _ & -> & _).
  injection Harg as ->.
  destruct (analyze_all_spec py_round w sc.1
              (build_master_index w master sc.1 initial_state)) as (-> & _).
  rewrite build_master_index_last. cbn [initial_state master_hashes].
  rewrite lookup_empty. by destruct (last _).
Qed.

End Classification.

(** ** The counts of the reports *)

Lemma filter_negb_length {A : Type} (p : A -> bool) (l : list A) :
  (List.length (List.filter p l)
   + List.length (List.filter (fun x => negb (p x)) l))%nat
  = List.length l.
Proof.
  induction l as [|x l IH]; [done|].
  simpl. destruct (p x); simpl; lia.
Qed.

Lemma count_entries_default (l : list entry) :
  default O (count_entries l) = List.length l.
Proof. by destruct l. Qed.

Lemma count_entries_snoc (l : list entry) (e : entry) :
  Some (S (List.length l)) = count_entries (l ++ [e]).
Proof.
  destruct l as [|x l]; [done|].
  simpl. rewrite length_app. simpl. f_equal. lia.
Qed.

Section Counts.

Variable py_round : spec_float -> Z -> spec_float.
Variable w : world.

Lemma hashed_or_not_length (index : gmap string string) (files : list string) :
  (List.length (omap (fun f => make_entry py_round w index f <$> hash_file w f) files)
   + List.length (filter (fun f => hash_file w f = None) files))%nat
  = List.length files.
Proof.
  induction files as [|f files IH]; [done|].
  rewrite omap_cons_case.
  destruct (hash_file w f) as [h|] eqn:Hh; cbn [fmap option_fmap option_map].
  - rewrite filter_cons_False by congruence. simpl. lia.
  - rewrite filter_cons_True by congruence. simpl. lia.
Qed.

(** X6: nothing that was scanned is lost and nothing is counted twice:
    the scanned paths are as many as the records of the report and the
    hash errors together; the records are as many as those in the master
    and the new ones together; the CSV report has one row for each record;
    and the error count is that of the scan errors and the hash errors. *)
Theorem X6_every_scanned_file_is_accounted_for (argv : list string)
  (out : reports) (sc : scan_state) (st : state) :
  main py_round w argv = Completed out sc st ->
  List.length sc.1
  = (json_total_files (report_json out) + List.length (hash_errors st))%nat
  /\ (sum_in_master (report_summary out) + sum_new (report_summary out))%nat
     = sum_total (report_summary out)
  /\ sum_total (report_summary out) = json_total_files (report_json out)
  /\ List.length (report_detailed_csv out) = json_total_files (report_json out)
  /\ json_total_files (report_json out) = List.length (json_files (report_json out))
  /\ json_total_errors (report_json out)
     = (List.length sc.2 + List.length (hash_errors st))%nat.
Proof.
  intros Hmain.
  destruct (main_lists py_round w _ _ _ _ Hmain) as (Hd & He & _ & _).
  destruct (main_completed py_round w _ _ _ _ Hmain)
    as (prog & m & rest & _ & _ & _ & ->).
  cbn [write_reports report_json report_summary report_detailed_csv
       json_total_files json_total_errors json_files sum_in_master sum_new
       sum_total].
  split_and!; [|apply filter_negb_length|done|by rewrite length_map|done|done].
  rewrite Hd, He. symmetry. apply hashed_or_not_length.
Qed.

Lemma add_entry_summary_counts (e : entry) (st : state) :
  summary_counts st -> summary_counts (add_entry e st).
Proof.
  intros Hinv ext. unfold add_entry. cbn [summary detailed].
  rewrite filter_app. destruct (decide (format e = ext)) as [<-|Hne].
  - rewrite lookup_insert_eq, Hinv, count_entries_default.
    rewrite filter_cons_True by done. rewrite filter_nil.
    apply count_entries_snoc.
  - rewrite lookup_insert_ne by done.
    rewrite filter_cons_False by done. rewrite filter_nil, app_nil_r. apply Hinv.
Qed.

Lemma analyze_all_summary_counts (files : list string) :
  forall st : state,
    summary_counts st -> summary_counts (analyze_all py_round w files st).
Proof.
  unfold analyze_all.
  induction files as [|f files IH]; intros st Hinv; [done|].
  simpl. apply IH. unfold analyze_step.
  destruct (hash_file w f) as [h|]; [|exact Hinv].
  apply add_entry_summary_counts. exact Hinv.
Qed.

(** X7: the summary by format counts the records: a format has a line
    exactly when some record has that format, and the number on the line
    is the number of those records. *)
Theorem X7_summary_counts_records_by_format (argv : list string)
  (out : reports) (sc : scan_state) (st : state) (ext : string) :
  main py_round w argv = Completed out sc st ->
  sum_by_format (report_summary out) !! ext
  = count_entries (filter (fun e => format e = ext) (json_files (report_json out))).
Proof.
  intros Hmain.
  destruct (main_completed py_round w _ _ _ _ Hmain)
    as (prog & m & rest & _ & _ & Hst & ->).
  cbn [write_reports report_summary sum_by_format report_json json_files].
  rewrite Hst. apply analyze_all_summary_counts.
  intros ext'.
  destruct (build_master_index_frame w m sc.1 initial_state) as (-> & -> & _).
  done.
Qed.

End Counts.

(** ** The order of the ranks *)

(** X9: the rank never gets worse when the bitrate grows, a known bitrate
    never ranks behind an unknown one, every rank lies between 1 and 9999,
    and the ranks 1 and 2 are those of the four lossless extensions and of
    nothing else, so that a lossless file ranks before every lossy one. *)
Theorem X9_rank_is_monotone (ext : string) (b b' : Z) :
  b <= b' ->
  (1 <= compute_quality_rank ext (Some b')
   /\ compute_quality_rank ext (Some b') <= compute_quality_rank ext (Some b)
   /\ compute_quality_rank ext (Some b) <= compute_quality_rank ext None
   /\ compute_quality_rank ext None <= 9999)
  /\ (forall bitrate : option Z,
        compute_quality_rank ext bitrate <= 2
        <-> ext = ".wav" \/ ext = ".aif" \/ ext = ".aiff" \/ ext = ".flac").
Proof.
  intros Hb. unfold compute_quality_rank.
  destruct (String.eqb_spec ext ".wav") as [->|Hwav].
  { simpl. split; [lia|]. intros _. split; [by left|lia]. }
  destruct (String.eqb_spec ext ".aif") as [->|Haif].
  { simpl. split; [lia|]. intros _. split; [by right; left|lia]. }
  destruct (String.eqb_spec ext ".aiff") as [->|Haiff].
  { simpl. split; [lia|]. intros _. split; [by right; right; left|lia]. }
  destruct (String.eqb_spec ext ".flac") as [->|Hflac].
  { simpl. split; [lia|]. intros _. split; [by right; right; right|lia]. }
  simpl. split.
  - repeat match goal with
           | |- context [?x <=? ?y] => destruct (Z.leb_spec x y)
           end; lia.
  - intros [bitrate|]; (split; [|by intros [?|[?|[?|?]]]]).
    + repeat match goal with
             | |- context [?x <=? ?y] => destruct (Z.leb_spec x y)
             end; lia.
    + lia.
Qed.

(** ** How the scans compose *)

(** X10: a scan only appends to the two lists it is given, and what it
    appends does not depend on them; so the list of files of a run is made
    of the files of the master, then those of the second root, then those of
    the third, each as a scan of that root alone finds them, and likewise
    for the scan errors. *)
Theorem X10_scans_append_in_order (w : world) :
  (forall (root : string) (st : scan_state),
     scan_folder w root st
     = (st.1 ++ (scan_folder w root ([], [])).1,
        st.2 ++ (scan_folder w root ([], [])).2))
  /\ (forall (master : string) (musik evo : option string),
        scan_all w master musik evo
        = ((scan_folder w master ([], [])).1
           ++ (scan_optional w musik ([], [])).1
           ++ (scan_optional w evo ([], [])).1,
           (scan_folder w master ([], [])).2
           ++ (scan_optional w musik ([], [])).2
           ++ (scan_optional w evo ([], [])).2)).
Proof.
  split; [intros; apply scan_folder_app|].
  intros master musik evo. unfold scan_all.
  rewrite (scan_optional_app w evo), (scan_optional_app w musik). simpl.
  by rewrite <- !app_assoc.
Qed.

(** ** The calls of the hasher *)

Section HashCalls.

Variable py_round : spec_float -> Z -> spec_float.
Variable w : world.

Lemma build_master_index_hash_calls (master : string) (files : list string) :
  forall st : state,
    List.filter is_hashing (trace (build_master_index w master files st))
    = List.filter is_hashing (trace st)
      ++ ((fun f => Hashed f (hash_file w f))
            <$> List.filter (selected master) files).
Proof.
  unfold build_master_index, selected.
  induction files as [|f files IH]; intros st; simpl; [by rewrite app_nil_r|].
  rewrite IH. clear IH. unfold master_step.
  destruct (PyStr.startswith f master); [|done].
  rewrite fmap_cons.
  destruct (hash_file w f) as [h|].
  - destruct (PyStr.truthy h);
      cbn [set_master_hash log trace]; rewrite ?List.filter_app;
      simpl; by rewrite ?app_nil_r, <- app_assoc.
  - cbn [log trace]. rewrite List.filter_app. simpl. by rewrite <- app_assoc.
Qed.

Lemma analyze_all_hash_calls (files : list string) :
  forall st : state,
    List.filter is_hashing (trace (analyze_all py_round w files st))
    = List.filter is_hashing (trace st)
      ++ ((fun f => Hashed f (hash_file w f)) <$> files).
Proof.
  unfold analyze_all.
  induction files as [|f files IH]; intros st; simpl; [by rewrite app_nil_r|].
  rewrite IH. clear IH. unfold analyze_step.
  destruct (hash_file w f) as [h|].
  - cbn [add_entry log trace]. rewrite !List.filter_app. simpl.
    by rewrite ?app_nil_r, <- app_assoc.
  - cbn [add_hash_error log trace]. rewrite List.filter_app. simpl.
    by rewrite <- app_assoc.
Qed.

(** X11: no digest is kept from the first loop for the second.  The calls
    of [hash_file] of a run are, in this order, one for each scanned path
    that starts with the first argument, in the order of the scan, and
    then one for each scanned path, in the order of the scan; each call
    returns what [hash_file] returns for the path.  So a run makes as many
    calls as there are scanned paths, and one more for each of them that
    starts with the first argument. *)
Theorem X11_selected_files_are_hashed_twice (argv : list string)
  (master : string) (out : reports) (sc : scan_state) (st : state) :
  main py_round w argv = Completed out sc st ->
  argv !! 1%nat = Some master ->
  List.filter is_hashing (trace st)
  = ((fun f => Hashed f (hash_file w f))
       <$> (List.filter (selected master) sc.1 ++ sc.1))
  /\ List.length (List.filter is_hashing (trace st))
     = (List.length sc.1 + List.length (List.filter (selected master) sc.1))%nat.
Proof.
  intros Hmain Harg.
  destruct (main_completed py_round w _ _ _ _ Hmain)
    as (prog & m & rest & -> & _ & -> & _).
  injection Harg as ->.
  rewrite analyze_all_hash_calls, build_master_index_hash_calls.
  cbn [initial_state trace List.filter]. rewrite app_nil_l, <- fmap_app.
  split; [done|]. rewrite length_fmap, length_app. lia.
Qed.

End HashCalls.

(** ** The summary adds up *)

Lemma summary_total_insert (m : gmap string nat) (k : string) (n : nat) :
  (summary_total (<[k := n]> m) + default O (m !! k))%nat
  = (n + summary_total m)%nat.
Proof.
  unfold summary_total.
  assert (Hcomm : forall (m' : gmap string nat) (j1 j2 : string) (z1 z2 y : nat),
             j1 <> j2 -> m' !! j1 = Some z1 -> m' !! j2 = Some z2 ->
             (z1 + (z2 + y) = z2 + (z1 + y))%nat) by (intros; lia).
  destruct (m !! k) as [v|] eqn:Hk.
  - rewrite <- insert_delete_eq.
    rewrite map_fold_insert_L; [|by eauto|by rewrite lookup_delete_eq].
    rewrite <- (insert_delete_id m k v Hk) at 2.
    rewrite map_fold_insert_L; [|by eauto|by rewrite lookup_delete_eq].
    simpl. lia.
  - rewrite map_fold_insert_L; [|by eauto|done]. simpl. lia.
Qed.

Lemma add_entry_total (e : entry) (st : state) :
  summary_total (summary st) = List.length (detailed st) ->
  summary_total (summary (add_entry e st)) = List.length (detailed (add_entry e st)).
Proof.
  intros Hinv. unfold add_entry. cbn [summary detailed].
  pose proof (summary_total_insert (summary st) (format e)
                (S (default O (summary st !! format e)))) as H.
  rewrite length_app. simpl. lia.
Qed.

Lemma analyze_all_total (py_round : spec_float -> Z -> spec_float) (w : world)
  (files : list string) :
  forall st : state,
    summary_total (summary st) = List.length (detailed st) ->
    summary_total (summary (analyze_all py_round w files st))
    = List.length (detailed (analyze_all py_round w files st)).
Proof.
  unfold analyze_all.
  induction files as [|f files IH]; intros st Hinv; [done|].
  simpl. apply IH. unfold analyze_step.
  destruct (hash_file w f) as [h|]; [|exact Hinv].
  apply add_entry_total. exact Hinv.
Qed.

(** X8: the numbers of the summary by format add up to the number of
    records of the report. *)
Theorem X8_summary_adds_up (py_round : spec_float -> Z -> spec_float) (w : world)
  (argv : list string) (out : reports) (sc : scan_state) (st : state) :
  main py_round w argv = Completed out sc st ->
  summary_total (sum_by_format (report_summary out))
  = sum_total (report_summary out).
Proof.
  intros Hmain.
  destruct (main_completed py_round w _ _ _ _ Hmain)
    as (prog & m & rest & _ & _ & Hst & ->).
  cbn [write_reports report_summary sum_by_format sum_total].
  rewrite Hst. apply analyze_all_total.
  destruct (build_master_index_frame w m sc.1 initial_state) as (-> & -> & _).
  reflexivity.
Qed.

(** ** Bitrate and rank together *)

Lemma even_not_odd_cases (q : Z) :
  (Z.even q = true /\ exists k, q = 2 * k)
  \/ (Z.even q = false /\ exists k, q = 2 * k + 1).
Proof.
  destruct (Z.even q) eqn:He.
  - left. split; [done|]. by apply Z.even_spec in He as [k ->]; exists k.
  - right. split; [done|].
    assert (Ho : Z.odd q = true) by (by rewrite <- Z.negb_even, He).
    by apply Z.odd_spec in Ho as [k ->]; exists k.
Qed.

(** Where the rounded bitrate crosses an even threshold. *)
Lemma round_div_1000_ge (b t : Z) :
  Z.even t = true ->
  t <= round_div b 1000 <-> 1000 * t - 500 <= b.
Proof.
  intros Ht. apply Z.even_spec in Ht as [j ->]. unfold round_div.
  pose proof (Z.div_mod b 1000 ltac:(lia)) as Hdm.
  pose proof (Z.mod_pos_bound b 1000 ltac:(lia)) as Hr.
  set (q := b / 1000) in *. set (r := b mod 1000) in *.
  destruct (Z.ltb_spec (2 * r) 1000); [lia|].
  destruct (Z.ltb_spec 1000 (2 * r)); [lia|].
  destruct (even_not_odd_cases q) as [[-> (k & Hk)]|[-> (k & Hk)]]; lia.
Qed.

(** X16: for a file that is not lossless and whose stream has a bitrate
    of [b] bits per second, below [2^1024] in absolute value, the rank
    computed from the extracted bitrate is 3 from 319500 on, 4 from 255500
    on, 5 from 191500 on and 6 below: the thresholds of the rank lie half a
    kilobit below 320, 256 and 192, on the side that rounding to the even
    number gives them.  Whatever [b] is, the rank is that one, or it is
    9999, the extraction then having returned [(None, None)]. *)
Theorem X16_rank_thresholds_in_bits_per_second (w : world) (path ext : string)
  (info : stream_info) (b : Z) :
  mutagen_file w path = MutagenAudio (Some info) ->
  info_bitrate info = Some b ->
  ext <> ".wav" -> ext <> ".aif" -> ext <> ".aiff" -> ext <> ".flac" ->
  (Z.abs b < 2 ^ 1024 ->
   compute_quality_rank ext (get_bitrate_and_duration w path).1
   = (if 319500 <=? b then 3
      else if 255500 <=? b then 4
      else if 191500 <=? b then 5
      else 6))
  /\ (compute_quality_rank ext (get_bitrate_and_duration w path).1
      = (if 319500 <=? b then 3
         else if 255500 <=? b then 4
         else if 191500 <=? b then 5
         else 6)
      \/ (get_bitrate_and_duration w path = (None, None)
          /\ compute_quality_rank ext (get_bitrate_and_duration w path).1 = 9999)).
Proof.
  intros Hm Hb Hwav Haif Haiff Hflac.
  unfold get_bitrate_and_duration. rewrite Hm, Hb.
  unfold compute_quality_rank.
  apply String.eqb_neq in Hwav, Haif, Haiff, Hflac.
  rewrite Hwav, Haif, Haiff, Hflac. cbn [orb].
  assert (Hsome : forall k, round_true_divide b 1000 = Some k ->
            (if 320 <=? k then 3
             else if 256 <=? k then 4 else if 192 <=? k then 5 else 6)
            = (if 319500 <=? b then 3
               else if 255500 <=? b then 4
               else if 191500 <=? b then 5
               else 6)).
  { intros k Hk.
    destruct (Z.lt_ge_cases (Z.abs b) (2 ^ 53)) as [Hsmall|Hlarge].
    - rewrite (round_true_divide_small b Hsmall) in Hk. injection Hk as <-.
      pose proof (round_div_1000_ge b 320 eq_refl) as H320.
      pose proof (round_div_1000_ge b 256 eq_refl) as H256.
      pose proof (round_div_1000_ge b 192 eq_refl) as H192.
      repeat match goal with
             | |- context [?x <=? ?y] => destruct (Z.leb_spec x y)
             end; lia.
    - destruct (round_true_divide_large b k Hlarge Hk) as [Hpos Hneg].
      change (2 ^ 53) with 9007199254740992 in Hlarge.
      repeat match goal with
             | |- context [?x <=? ?y] => destruct (Z.leb_spec x y)
             end; lia. }
  split.
  - intros Hlt. destruct (round_true_divide_is_Some b Hlt) as (k & Hk).
    rewrite Hk. cbn [fst]. by apply Hsome.
  - destruct (round_true_divide b 1000) as [k|] eqn:Hk; cbn [fst].
    + left. by apply Hsome.
    + by right.
Qed.

(** ** Paths in normal form *)

Lemma string_cons_app (x : ascii) (a b : string) :
  String x a +:+ b = String x (a +:+ b).
Proof. reflexivity. Qed.

Lemma string_nil_app (b : string) : EmptyString +:+ b = b.
Proof. reflexivity. Qed.

Lemma string_app_assoc (a b c : string) : (a +:+ b) +:+ c = a +:+ (b +:+ c).
Proof.
  induction a as [|x a IH]; [done|]. by rewrite !string_cons_app, IH.
Qed.

Lemma string_app_nil_r (a : string) : a +:+ EmptyString = a.
Proof.
  induction a as [|x a IH]; [done|]. by rewrite string_cons_app, IH.
Qed.

Lemma prefix_nil (s : string) : String.prefix EmptyString s = true.
Proof. by destruct s. Qed.

Lemma prefix_cons (x y : ascii) (a b : string) :
  String.prefix (String x a) (String y b)
  = (if ascii_dec x y then String.prefix a b else false).
Proof. reflexivity. Qed.

Lemma prefix_app (a b : string) : String.prefix a (a +:+ b) = true.
Proof.
  induction a as [|x a IH]; [apply prefix_nil|].
  rewrite string_cons_app, prefix_cons.
  destruct (ascii_dec x x); [apply IH|congruence].
Qed.

Lemma prefix_app_r (a b c : string) :
  String.prefix a b = true -> String.prefix a (b +:+ c) = true.
Proof.
  revert b. induction a as [|x a IH]; intros b; [intros; apply prefix_nil|].
  destruct b as [|y b]; [done|]. rewrite string_cons_app, !prefix_cons.
  destruct (ascii_dec x y); [apply IH|done].
Qed.

Lemma prefix_of_app (a b c : string) :
  String.prefix a (b +:+ c) = true ->
  String.prefix a b = true \/ String.prefix b a = true.
Proof.
  revert b. induction a as [|x a IH]; intros b; [left; apply prefix_nil|].
  destruct b as [|y b]; [by right|]. rewrite string_cons_app, !prefix_cons.
  destruct (ascii_dec x y) as [->|Hne]; [|done].
  destruct (ascii_dec y y); [|congruence]. apply IH.
Qed.

Lemma ascii_not_slash_match (c : ascii) (A : Type) (x y : A) :
  c <> "/"%char ->
  match c with
  | "/"%char => x
  | _ => y
  end = y.
Proof.
  intros Hne.
  destruct c as [[] [] [] [] [] [] [] []]; try reflexivity. by destruct Hne.
Qed.

Lemma splitroot_other (c : ascii) (r : string) :
  c <> "/"%char -> PosixPath.splitroot (String c r) = (EmptyString, String c r).
Proof.
  intros Hne. unfold PosixPath.splitroot.
  destruct c as [[] [] [] [] [] [] [] []]; try reflexivity. by destruct Hne.
Qed.

Lemma splitroot_one (c : ascii) (r : string) :
  c <> "/"%char ->
  PosixPath.splitroot (String "/" (String c r)) = ("/", String c r).
Proof.
  intros Hne. unfold PosixPath.splitroot.
  destruct c as [[] [] [] [] [] [] [] []]; try reflexivity. by destruct Hne.
Qed.

Lemma splitroot_two (c : ascii) (r : string) :
  c <> "/"%char ->
  PosixPath.splitroot (String "/" (String "/" (String c r))) = ("//", String c r).
Proof.
  intros Hne. unfold PosixPath.splitroot.
  destruct c as [[] [] [] [] [] [] [] []]; try reflexivity. by destruct Hne.
Qed.

Lemma Path_unfold (s : string) :
  PosixPath.Path s
  = PosixPath.mk (PosixPath.splitroot s).1
      (List.filter kept_part (PyStr.split_slash (PosixPath.splitroot s).2)).
Proof. unfold PosixPath.Path. by destruct (PosixPath.splitroot s). Qed.

Lemma split_slash_slash (s : string) :
  PyStr.split_slash (String "/" s) = EmptyString :: PyStr.split_slash s.
Proof. reflexivity. Qed.

(** The components of a path are those of the whole string. *)
Lemma Path_tail (s : string) :
  PosixPath.tail (PosixPath.Path s) = List.filter kept_part (PyStr.split_slash s).
Proof.
  rewrite Path_unfold. cbn [PosixPath.tail].
  destruct s as [|c1 r1]; [done|].
  destruct (ascii_dec c1 "/") as [->|H1]; [|by rewrite splitroot_other].
  destruct r1 as [|c2 r2]; [done|].
  destruct (ascii_dec c2 "/") as [->|H2]; [|by rewrite splitroot_one].
  destruct r2 as [|c3 r3]; [done|].
  destruct (ascii_dec c3 "/") as [->|H3]; [done|by rewrite splitroot_two].
Qed.

Lemma Path_root_cases (s : string) :
  PosixPath.root (PosixPath.Path s) = EmptyString
  \/ PosixPath.root (PosixPath.Path s) = "/"
  \/ PosixPath.root (PosixPath.Path s) = "//".
Proof.
  rewrite Path_unfold. cbn [PosixPath.root].
  destruct s as [|c1 r1]; [by left|].
  destruct (ascii_dec c1 "/") as [->|H1]; [|rewrite splitroot_other by done; by left].
  destruct r1 as [|c2 r2]; [by right; left|].
  destruct (ascii_dec c2 "/") as [->|H2];
    [|rewrite splitroot_one by done; by right; left].
  destruct r2 as [|c3 r3]; [by right; right|].
  destruct (ascii_dec c3 "/") as [->|H3];
    [by right; left|rewrite splitroot_two by done; by right; right].
Qed.

(** A string that does not begin with a slash. *)
Lemma startswith_slash_cons (c : ascii) (t : string) :
  PyStr.startswith (String c t) "/" = bool_decide (c = "/"%char).
Proof.
  unfold PyStr.startswith. rewrite prefix_cons, prefix_nil.
  destruct (ascii_dec "/" c) as [<-|Hne].
  - by rewrite bool_decide_eq_true_2.
  - by rewrite bool_decide_eq_false_2.
Qed.

Lemma root_app_no_slash (s t : string) :
  PyStr.startswith t "/" = false ->
  (PosixPath.splitroot (s +:+ t)).1 = (PosixPath.splitroot s).1.
Proof.
  intros Ht.
  assert (Ht' : t = EmptyString \/ exists c t', t = String c t' /\ c <> "/"%char).
  { destruct t as [|c t']; [by left|]. right. exists c, t'. split; [done|].
    rewrite startswith_slash_cons in Ht. by apply bool_decide_eq_false in Ht. }
  clear Ht.
  destruct s as [|c1 r1].
  { rewrite string_nil_app.
    destruct Ht' as [->|(c & t' & -> & Hc)]; [done|by rewrite splitroot_other]. }
  rewrite string_cons_app.
  destruct (ascii_dec c1 "/") as [->|H1]; [|by rewrite !splitroot_other].
  destruct r1 as [|c2 r2].
  { rewrite string_nil_app.
    destruct Ht' as [->|(c & t' & -> & Hc)]; [done|by rewrite splitroot_one]. }
  rewrite string_cons_app.
  destruct (ascii_dec c2 "/") as [->|H2]; [|by rewrite !splitroot_one].
  destruct r2 as [|c3 r3].
  { rewrite string_nil_app.
    destruct Ht' as [->|(c & t' & -> & Hc)]; [done|by rewrite splitroot_two]. }
  rewrite string_cons_app.
  destruct (ascii_dec c3 "/") as [->|H3]; [done|by rewrite !splitroot_two].
Qed.

Lemma endswith_slash_cons (c : ascii) (s : string) :
  PyStr.endswith (String c s) "/"
  = match s with
    | EmptyString => Ascii.eqb c "/"
    | _ => PyStr.endswith s "/"
    end.
Proof.
  unfold PyStr.endswith. destruct s as [|y s'].
  - simpl. by destruct (Ascii.eqb c "/").
  - cbn [String.length]. simpl.
    by rewrite Nat.sub_0_r.
Qed.

Lemma root_app_inner (s t : string) :
  s <> EmptyString -> PyStr.endswith s "/" = false ->
  (PosixPath.splitroot (s +:+ t)).1 = (PosixPath.splitroot s).1.
Proof.
  intros Hs He.
  destruct s as [|c1 r1]; [done|]. clear Hs.
  rewrite string_cons_app.
  destruct (ascii_dec c1 "/") as [->|H1]; [|by rewrite !splitroot_other].
  destruct r1 as [|c2 r2]; [done|].
  rewrite string_cons_app.
  destruct (ascii_dec c2 "/") as [->|H2]; [|by rewrite !splitroot_one].
  destruct r2 as [|c3 r3]; [done|].
  rewrite string_cons_app.
  destruct (ascii_dec c3 "/") as [->|H3]; [done|by rewrite !splitroot_two].
Qed.

Lemma split_slash_nonempty (s : string) : PyStr.split_slash s <> [].
Proof.
  destruct s as [|c s]; [done|]. simpl.
  destruct (Ascii.eqb c "/"); [done|]. by destruct (PyStr.split_slash s).
Qed.

Lemma split_slash_app (a b : string) :
  PyStr.split_slash (a +:+ String "/" b) = PyStr.split_slash a ++ PyStr.split_slash b.
Proof.
  induction a as [|c a IH]; [done|].
  rewrite string_cons_app. cbn [PyStr.split_slash]. rewrite IH.
  destruct (Ascii.eqb c "/"); [done|].
  pose proof (split_slash_nonempty a) as Hne.
  by destruct (PyStr.split_slash a).
Qed.

Lemma split_slash_component (c : string) :
  has_slash c = false -> PyStr.split_slash c = [c].
Proof.
  induction c as [|x c IH]; [done|].
  cbn [has_slash PyStr.split_slash]. intros H.
  apply orb_false_iff in H as [-> H]. by rewrite IH.
Qed.

Lemma split_slash_no_slash (s : string) :
  List.Forall (fun x => has_slash x = false) (PyStr.split_slash s).
Proof.
  induction s as [|c s IH]; [by repeat constructor|].
  cbn [PyStr.split_slash]. destruct (Ascii.eqb c "/") eqn:Hc.
  - by constructor.
  - destruct (PyStr.split_slash s) as [|x xs]; [by repeat constructor; simpl; rewrite Hc|].
    apply List.Forall_cons_iff in IH as [Hx Hxs].
    constructor; [|done]. simpl. by rewrite Hc, Hx.
Qed.

Lemma is_component_spec (c : string) :
  is_component c = kept_part c && negb (has_slash c).
Proof. reflexivity. Qed.

Lemma Path_well_formed (s : string) : well_formed (PosixPath.Path s).
Proof.
  split; [apply Path_root_cases|].
  rewrite Path_tail. apply List.Forall_forall. intros x Hx.
  apply List.filter_In in Hx as [Hx Hk].
  pose proof (split_slash_no_slash s) as Hall.
  rewrite List.Forall_forall in Hall.
  by rewrite is_component_spec, Hk, (Hall x Hx).
Qed.

Lemma join_slash_cons (x y : string) (rest : list string) :
  PyStr.join_slash (x :: y :: rest) = x +:+ String "/" (PyStr.join_slash (y :: rest)).
Proof. reflexivity. Qed.

Lemma split_join_slash (parts : list string) :
  parts <> [] ->
  List.Forall (fun x => has_slash x = false) parts ->
  PyStr.split_slash (PyStr.join_slash parts) = parts.
Proof.
  induction parts as [|x parts IH]; [done|]. intros _ Hall.
  apply List.Forall_cons_iff in Hall as [Hx Hall].
  destruct parts as [|y rest]; [by apply split_slash_component|].
  rewrite join_slash_cons, split_slash_app, split_slash_component by done.
  by rewrite IH.
Qed.

Lemma endswith_slash_inv (s : string) :
  PyStr.endswith s "/" = true -> exists s', s = s' +:+ "/".
Proof.
  induction s as [|c s IH]; [done|].
  rewrite endswith_slash_cons. destruct s as [|y s'].
  - intros Hc. apply Ascii.eqb_eq in Hc as ->. by exists EmptyString.
  - intros He. destruct (IH He) as (s'' & ->). by exists (String c s'').
Qed.

Lemma filter_kept_component (c : string) :
  is_component c = true -> List.filter kept_part [c] = [c].
Proof.
  rewrite is_component_spec. intros H. apply andb_true_iff in H as [H _].
  simpl. by rewrite H.
Qed.

Lemma component_no_slash (c : string) :
  is_component c = true -> has_slash c = false.
Proof.
  rewrite is_component_spec. intros H. apply andb_true_iff in H as [_ H].
  by destruct (has_slash c).
Qed.

Lemma component_startswith (c : string) :
  is_component c = true -> PyStr.startswith c "/" = false.
Proof.
  intros H. pose proof (component_no_slash c H) as Hs.
  destruct c as [|x c]; [done|].
  rewrite startswith_slash_cons. simpl in Hs.
  apply orb_false_iff in Hs as [Hx _]. apply Ascii.eqb_neq in Hx.
  by rewrite bool_decide_eq_false_2.
Qed.

Lemma Path_eq (s : string) :
  PosixPath.Path s
  = PosixPath.mk (PosixPath.splitroot s).1
      (List.filter kept_part (PyStr.split_slash s)).
Proof.
  rewrite <- Path_tail. rewrite (Path_unfold s) at 1. by rewrite Path_unfold.
Qed.

(** Joining a name to a directory path adds one component. *)
Lemma Path_join_component (s c : string) :
  is_component c = true ->
  PosixPath.Path (PosixPath.join s c) = extend (PosixPath.Path s) [c].
Proof.
  intros Hc. unfold PosixPath.join. rewrite (component_startswith c Hc).
  pose proof (component_startswith c Hc) as Hstart.
  pose proof (component_no_slash c Hc) as Hns.
  pose proof (filter_kept_component c Hc) as Hkept.
  unfold extend. rewrite !Path_eq. cbn [PosixPath.root PosixPath.tail].
  destruct s as [|x s].
  { simpl. rewrite string_nil_app.
    rewrite <- (string_nil_app c) at 1. rewrite root_app_no_slash by done.
    rewrite (split_slash_component c) by done. by rewrite Hkept. }
  assert (Ht : PyStr.truthy (String x s) = true) by done.
  rewrite Ht. cbn [negb orb].
  destruct (PyStr.endswith (String x s) "/") eqn:He.
  - rewrite root_app_no_slash by done. f_equal.
    destruct (endswith_slash_inv _ He) as (s' & ->).
    rewrite string_app_assoc. change ("/" +:+ c) with (String "/" c).
    change "/" with (String "/" EmptyString).
    rewrite !split_slash_app, !List.filter_app.
    rewrite (split_slash_component c) by done. rewrite Hkept. simpl.
    by rewrite app_nil_r.
  - rewrite root_app_inner by done. f_equal.
    change ("/" +:+ c) with (String "/" c).
    rewrite split_slash_app, List.filter_app.
    rewrite (split_slash_component c) by done. by rewrite Hkept.
Qed.

Lemma filter_kept_components (parts : list string) :
  List.Forall (fun c => is_component c = true) parts ->
  List.filter kept_part parts = parts.
Proof.
  induction 1 as [|c parts Hc _ IH]; [done|].
  simpl. rewrite is_component_spec in Hc. apply andb_true_iff in Hc as [-> _].
  by rewrite IH.
Qed.

Lemma components_no_slash (parts : list string) :
  List.Forall (fun c => is_component c = true) parts ->
  List.Forall (fun c => has_slash c = false) parts.
Proof. apply List.Forall_impl. intros c. apply component_no_slash. Qed.

Lemma filter_split_join (parts : list string) :
  List.Forall (fun c => is_component c = true) parts ->
  List.filter kept_part (PyStr.split_slash (PyStr.join_slash parts)) = parts.
Proof.
  intros Hall. destruct parts as [|x parts]; [done|].
  rewrite split_join_slash; [|done|by apply components_no_slash].
  by apply filter_kept_components.
Qed.

Lemma join_slash_startswith (parts : list string) :
  List.Forall (fun c => is_component c = true) parts ->
  PyStr.startswith (PyStr.join_slash parts) "/" = false.
Proof.
  intros Hall. destruct parts as [|x parts]; [done|].
  apply List.Forall_cons_iff in Hall as [Hx _].
  pose proof (component_startswith x Hx) as Hs.
  destruct x as [|c x']; [done|].
  destruct parts as [|y rest]; [done|].
  rewrite join_slash_cons, string_cons_app, startswith_slash_cons.
  by rewrite startswith_slash_cons in Hs.
Qed.

(** Parsing what [str] prints gives the path back. *)
Lemma Path_str (p : PosixPath.t) :
  well_formed p -> PosixPath.Path (PosixPath.str p) = p.
Proof.
  destruct p as [r tl]. intros [Hr Htl]. cbn [PosixPath.root PosixPath.tail] in *.
  pose proof (join_slash_startswith tl Htl) as Hstart.
  pose proof (filter_split_join tl Htl) as Hfilter.
  rewrite Path_eq. unfold PosixPath.str. cbn [PosixPath.root PosixPath.tail].
  destruct Hr as [->|[->| ->]].
  - cbn [PyStr.truthy String.eqb negb].
    destruct tl as [|x tl]; [done|].
    rewrite Hfilter. f_equal.
    rewrite <- (string_nil_app (PyStr.join_slash (x :: tl))).
    by rewrite root_app_no_slash.
  - change (PyStr.truthy "/") with true. cbn iota.
    rewrite root_app_no_slash by done.
    change ("/" +:+ PyStr.join_slash tl) with (String "/" (PyStr.join_slash tl)).
    rewrite split_slash_slash. simpl List.filter. by rewrite Hfilter.
  - change (PyStr.truthy "//") with true. cbn iota.
    rewrite root_app_no_slash by done.
    change ("//" +:+ PyStr.join_slash tl)
      with (String "/" (String "/" (PyStr.join_slash tl))).
    rewrite !split_slash_slash. simpl List.filter. by rewrite Hfilter.
Qed.

Lemma extend_well_formed (p : PosixPath.t) (names : list string) :
  well_formed p ->
  List.Forall (fun c => is_component c = true) names ->
  well_formed (extend p names).
Proof.
  intros [Hr Htl] Hn. split; [done|]. by apply List.Forall_app.
Qed.

Lemma extend_extend (p : PosixPath.t) (a b : list string) :
  extend (extend p a) b = extend p (a ++ b).
Proof. unfold extend. simpl. by rewrite <- app_assoc. Qed.

(** [p / name] adds the name as the last component. *)
Lemma truediv_component (p : PosixPath.t) (c : string) :
  well_formed p -> is_component c = true ->
  PosixPath.truediv p c = extend p [c].
Proof.
  intros Hp Hc. unfold PosixPath.truediv.
  by rewrite Path_join_component, Path_str.
Qed.

(** The directory paths of the walk, parsed. *)
Lemma Path_fold_join (dirs : list string) :
  List.Forall (fun c => is_component c = true) dirs ->
  forall top : string,
    PosixPath.Path (List.fold_left PosixPath.join dirs top)
    = extend (PosixPath.Path top) dirs.
Proof.
  induction 1 as [|d dirs Hd _ IH]; intros top.
  - unfold extend. simpl. rewrite app_nil_r. by destruct (PosixPath.Path top).
  - simpl. rewrite IH, Path_join_component by done. apply extend_extend.
Qed.

Lemma path_below_extend (top : string) (dirs : list string) (fname : string) :
  List.Forall (fun c => is_component c = true) dirs ->
  is_component fname = true ->
  path_below top dirs fname = extend (PosixPath.Path top) (dirs ++ [fname]).
Proof.
  intros Hd Hf. unfold path_below.
  rewrite truediv_component; [|apply Path_well_formed|done].
  by rewrite Path_fold_join, extend_extend.
Qed.

Lemma join_slash_app (a b : list string) :
  a <> [] -> b <> [] ->
  PyStr.join_slash (a ++ b)
  = (PyStr.join_slash a +:+ "/") +:+ PyStr.join_slash b.
Proof.
  intros Ha Hb. induction a as [|x a IH]; [done|].
  destruct a as [|y a].
  - destruct b as [|z b]; [done|].
    simpl app. rewrite join_slash_cons. cbn [PyStr.join_slash].
    by rewrite string_app_assoc.
  - change ((x :: y :: a) ++ b) with (x :: (y :: a) ++ b).
    change ((y :: a) ++ b) with (y :: a ++ b) at 1.
    rewrite join_slash_cons. change (y :: a ++ b) with ((y :: a) ++ b).
    rewrite IH by done. rewrite join_slash_cons.
    rewrite !string_app_assoc. reflexivity.
Qed.

(** Every path below [p] is the prefix of [p] followed by the names down
    to the file. *)
Lemma str_extend (p : PosixPath.t) (names : list string) :
  names <> [] ->
  PosixPath.str (extend p names) = dir_prefix p +:+ PyStr.join_slash names.
Proof.
  intros Hn. destruct p as [r tl]. unfold PosixPath.str, extend, dir_prefix.
  cbn [PosixPath.root PosixPath.tail].
  destruct tl as [|x tl].
  - rewrite app_nil_l, string_app_nil_r.
    destruct (PyStr.truthy r) eqn:Hr; [done|].
    destruct r as [|c r]; [|done]. by destruct names.
  - rewrite join_slash_app by done.
    destruct (PyStr.truthy r) eqn:Hr.
    + by rewrite !string_app_assoc.
    + destruct r as [|c r]; [|done]. reflexivity.
Qed.

Lemma files_under_valid (n : node) :
  valid_names n = true ->
  forall dirs fname a,
    In (dirs, fname, a) (files_under n) ->
    List.Forall (fun c => is_component c = true) dirs
    /\ is_component fname = true.
Proof.
  induction n as [a0|entries IH] using node_rect_nested; [done|].
  cbn [valid_names files_under]. intros Hvalid dirs fname a Hin.
  rewrite List.forallb_forall in Hvalid. rewrite List.Forall_forall in IH.
  apply in_flat_map in Hin as ([name child] & He & Hc).
  specialize (Hvalid _ He). cbn [fst snd] in Hvalid.
  apply andb_true_iff in Hvalid as [Hname Hchild].
  destruct child as [a1|sub]; simpl in Hc.
  - destruct Hc as [[= <- <- <-]|[]]. by split.
  - apply in_map_iff in Hc as ([[dirs' fname'] a'] & [= <- <- <-] & Hin').
    destruct (IH _ He Hchild _ _ _ Hin') as [Hd Hf]. split; [by constructor|done].
Qed.

(** What the scanner reports from a root whose names are as listings give
    them: the root, the kept directories down to the file, and the file. *)
Lemma scanned_path_shape (w : world) (root : string) (tree : node) (p : string) :
  tree_at w root = Some tree ->
  valid_names tree = true ->
  p ∈ (scan_folder w root ([], [])).1 ->
  exists dirs fname,
    List.Forall (fun c => is_component c = true) dirs
    /\ is_component fname = true
    /\ List.Forall (fun d => keep_dir d = true) dirs
    /\ audio_name fname (extend (PosixPath.Path root) (dirs ++ [fname]))
    /\ p = PosixPath.str (extend (PosixPath.Path root) (dirs ++ [fname])).
Proof.
  intros Hroot Hvalid Hp. unfold scan_folder in Hp.
  rewrite Hroot, scan_items_app in Hp. simpl in Hp.
  apply list_elem_of_In, in_flat_map in Hp as ([d fs] & Hitem & Hp).
  unfold found_in in Hp. simpl in Hp.
  apply in_flat_map in Hp as ([fname a] & Hent & Hp).
  apply scan_file_found in Hp as (Hname & sz & -> & Hsz & ->).
  destruct (proj1 (os_walk_files keep_dir tree
                     (PosixPath.str (PosixPath.Path root)) d fname (IsFile sz)))
    as (dirs & Hin & Hk & ->); [by exists fs|].
  destruct (files_under_valid tree Hvalid _ _ _ Hin) as [Hd Hf].
  exists dirs, fname.
  fold (path_below (PosixPath.str (PosixPath.Path root)) dirs fname) in *.
  rewrite path_below_extend in * by done.
  rewrite Path_str in * by apply Path_well_formed.
  done.
Qed.

(** Where a file of the run was found. *)
Lemma all_files_origin (w : world) (master : string) (musik evo : option string)
  (f : string) :
  f ∈ (scan_all w master musik evo).1 ->
  f ∈ (scan_folder w master ([], [])).1
  \/ (exists r, (musik = Some r \/ evo = Some r)
                /\ f ∈ (scan_folder w r ([], [])).1).
Proof.
  unfold scan_all.
  rewrite (scan_optional_app w evo), (scan_optional_app w musik). simpl.
  rewrite !elem_of_app. intros [[Hm|Hs]|He]; [by left|right..].
  - unfold scan_optional in Hs. destruct musik as [r|]; [|by apply elem_of_nil in Hs].
    destruct (PyStr.truthy r); [|by apply elem_of_nil in Hs].
    exists r. split; [by left|done].
  - unfold scan_optional in He. destruct evo as [r|]; [|by apply elem_of_nil in He].
    destruct (PyStr.truthy r); [|by apply elem_of_nil in He].
    exists r. split; [by right|done].
Qed.

Lemma scan_folder_found_exists (w : world) (root f : string) :
  f ∈ (scan_folder w root ([], [])).1 -> exists tree, tree_at w root = Some tree.
Proof.
  unfold scan_folder. destruct (tree_at w root) as [tree|]; [by exists tree|].
  destruct (exists_error w root); simpl; intros H; by apply elem_of_nil in H.
Qed.

Lemma master_files_first (w : world) (master : string) (musik evo : option string)
  (f : string) :
  f ∈ (scan_folder w master ([], [])).1 -> f ∈ (scan_all w master musik evo).1.
Proof.
  intros Hf. unfold scan_all.
  rewrite (scan_optional_app w evo), (scan_optional_app w musik). simpl.
  rewrite !elem_of_app. by left; left.
Qed.

Lemma prefix_refl (a : string) : String.prefix a a = true.
Proof.
  induction a as [|x a IH]; [done|].
  rewrite prefix_cons. destruct (ascii_dec x x); [done|congruence].
Qed.

Lemma normal_dir_prefix (s : string) :
  normal s -> s <> "." ->
  PyStr.startswith (dir_prefix (PosixPath.Path s)) s = true.
Proof.
  unfold normal, PyStr.startswith. intros Hn Hdot.
  destruct (PosixPath.Path s) as [r tl] eqn:Hp.
  unfold PosixPath.str in Hn. unfold dir_prefix.
  cbn [PosixPath.root PosixPath.tail] in *.
  destruct (PyStr.truthy r) eqn:Hr.
  - rewrite <- Hn. destruct tl as [|x tl].
    + cbn [PyStr.join_slash]. rewrite !string_app_nil_r. apply prefix_refl.
    + rewrite <- string_app_assoc. apply prefix_app.
  - destruct r as [|c r]; [|done]. destruct tl as [|x tl]; [congruence|].
    rewrite <- Hn, string_nil_app. apply prefix_app.
Qed.

Lemma last_snoc_default (l : list string) (x d : string) :
  List.last (l ++ [x]) d = x.
Proof. apply List.last_last. Qed.

Lemma scanned_path_normal (w : world) (root : string) (tree : node)
  (p : string) :
  tree_at w root = Some tree ->
  valid_names tree = true ->
  p ∈ (scan_folder w root ([], [])).1 ->
  normal p
  /\ PyStr.startswith p (dir_prefix (PosixPath.Path root)) = true
  /\ is_component (PosixPath.name (PosixPath.Path p)) = true
  /\ PyStr.startswith (PosixPath.name (PosixPath.Path p)) "._" = false
  /\ PyStr.lower (PosixPath.suffix (PosixPath.Path p)) ∈ AUDIO_EXT.
Proof.
  intros Hroot Hvalid Hp.
  destruct (scanned_path_shape w root tree p Hroot Hvalid Hp)
    as (dirs & fname & Hd & Hf & _ & [Hfork Hext] & ->).
  assert (Hwf : well_formed (extend (PosixPath.Path root) (dirs ++ [fname]))).
  { apply extend_well_formed; [apply Path_well_formed|].
    apply List.Forall_app. split; [done|by constructor]. }
  unfold normal. rewrite Path_str by done.
  split_and!; [done| | | |done].
  - rewrite str_extend by (by destruct dirs). apply prefix_app.
  - unfold PosixPath.name, extend. cbn [PosixPath.tail].
    by rewrite app_assoc, last_snoc_default.
  - unfold PosixPath.name, extend. cbn [PosixPath.tail].
    by rewrite app_assoc, last_snoc_default.
Qed.

(** X12: in a tree whose names are as directory listings give them, every
    path the scanner reports is in normal form and begins with the prefix
    of its root; its last component is a proper name that does not start
    with [._], and its extension in lower case is an audio extension. *)
Theorem X12_scanned_paths_are_normal (w : world) (root : string) (tree : node)
  (p : string) :
  tree_at w root = Some tree ->
  valid_names tree = true ->
  p ∈ (scan_folder w root ([], [])).1 ->
  normal p
  /\ PyStr.startswith p (dir_prefix (PosixPath.Path root)) = true
  /\ is_component (PosixPath.name (PosixPath.Path p)) = true
  /\ PyStr.startswith (PosixPath.name (PosixPath.Path p)) "._" = false
  /\ PyStr.lower (PosixPath.suffix (PosixPath.Path p)) ∈ AUDIO_EXT.
Proof. apply scanned_path_normal. Qed.

Section Records.

Variable py_round : spec_float -> Z -> spec_float.
Variable w : world.
Hypothesis Hnames : listed_names w.

Lemma make_entry_path_fields (index : gmap string string) (f h : string) :
  filename (make_entry py_round w index f h) = PosixPath.name (PosixPath.Path f)
  /\ format (make_entry py_round w index f h)
     = PyStr.lower (PosixPath.suffix (PosixPath.Path f))
  /\ quality_rank (make_entry py_round w index f h)
     = compute_quality_rank (format (make_entry py_round w index f h))
         (bitrate_kbps (make_entry py_round w index f h)).
Proof. unfold make_entry. by destruct (get_bitrate_and_duration w f). Qed.

Lemma all_files_shape (master : string) (musik evo : option string) (f : string) :
  f ∈ (scan_all w master musik evo).1 ->
  exists root tree,
    tree_at w root = Some tree /\ valid_names tree = true
    /\ f ∈ (scan_folder w root ([], [])).1
    /\ (root = master \/ musik = Some root \/ evo = Some root).
Proof.
  intros Hf. apply all_files_origin in Hf as [Hf|(r & Hr & Hf)].
  - destruct (scan_folder_found_exists _ _ _ Hf) as (tree & Htree).
    exists master, tree. split_and!; [done|by eapply Hnames|done|by left].
  - destruct (scan_folder_found_exists _ _ _ Hf) as (tree & Htree).
    exists r, tree. split_and!; [done|by eapply Hnames|done|right; tauto].
Qed.

(** X13: in a world whose directory listings give proper names, every
    record of the report has one of the seven audio extensions as its
    format, a source path in normal form whose last component is its file
    name, a file name that does not start with [._], and the rank that
    [compute_quality_rank] gives to its format and its bitrate. *)
Theorem X13_records_are_audio_files (argv : list string) (out : reports)
  (sc : scan_state) (st : state) (e : entry) :
  main py_round w argv = Completed out sc st ->
  e ∈ json_files (report_json out) ->
  format e ∈ AUDIO_EXT
  /\ normal (source_path e)
  /\ filename e = PosixPath.name (PosixPath.Path (source_path e))
  /\ is_component (filename e) = true
  /\ PyStr.startswith (filename e) "._" = false
  /\ quality_rank e = compute_quality_rank (format e) (bitrate_kbps e).
Proof.
  intros Hmain He.
  destruct (main_lists py_round w _ _ _ _ Hmain) as (Hd & _ & Hj & _).
  destruct (main_completed py_round w _ _ _ _ Hmain)
    as (prog & m & rest & _ & Hsc & _ & _).
  rewrite Hj, Hd in He.
  apply list_elem_of_omap in He as (f & Hf & Hmake).
  destruct (hash_file w f) as [h|] eqn:Hh; [|done].
  injection Hmake as <-.
  destruct (make_entry_fields py_round w (master_hashes st) f h) as (-> & _).
  destruct (make_entry_path_fields (master_hashes st) f h) as (-> & -> & ->).
  rewrite Hsc in Hf.
  destruct (all_files_shape _ _ _ _ Hf) as (root & tree & Htree & Hvalid & Hin & _).
  destruct (scanned_path_normal w root tree f Htree Hvalid Hin)
    as (Hn & _ & Hc & Hfork & Hext).
  split_and!; done.
Qed.

End Records.

Lemma prefix_trans (a b c : string) :
  String.prefix a b = true -> String.prefix b c = true ->
  String.prefix a c = true.
Proof.
  revert b c. induction a as [|x a IH]; intros b c; [intros; apply prefix_nil|].
  destruct b as [|y b]; [done|]. destruct c as [|z c]; [done|].
  rewrite !prefix_cons.
  destruct (ascii_dec x y) as [->|]; [|done].
  destruct (ascii_dec y z) as [->|]; [|done].
  destruct (ascii_dec z z); [|congruence]. apply IH.
Qed.

Section NormalRoots.

Variable py_round : spec_float -> Z -> spec_float.
Variable w : world.
Hypothesis Hnames : listed_names w.

Lemma master_files_selected (master f : string) :
  normal master -> master <> "." ->
  f ∈ (scan_folder w master ([], [])).1 ->
  PyStr.startswith f master = true.
Proof.
  intros Hn Hdot Hf.
  destruct (scan_folder_found_exists _ _ _ Hf) as (tree & Htree).
  destruct (scanned_path_normal w master tree f Htree (Hnames _ _ Htree) Hf)
    as (_ & Hpre & _).
  unfold PyStr.startswith in *.
  eapply prefix_trans; [|exact Hpre]. by apply normal_dir_prefix.
Qed.

Lemma other_files_not_selected (master r f : string) :
  apart master (dir_prefix (PosixPath.Path r)) ->
  f ∈ (scan_folder w r ([], [])).1 ->
  PyStr.startswith f master = false.
Proof.
  intros [Ha Hb] Hf.
  destruct (scan_folder_found_exists _ _ _ Hf) as (tree & Htree).
  destruct (scanned_path_shape w r tree f Htree (Hnames _ _ Htree) Hf)
    as (dirs & fname & _ & _ & _ & _ & ->).
  rewrite str_extend by (by destruct dirs).
  unfold PyStr.startswith.
  apply not_true_is_false. intros Hp.
  apply prefix_of_app in Hp as [Hp|Hp]; congruence.
Qed.

(** X14: when the first argument is a path in normal form other than [.]
    (and the listings give proper names), every file that the scan of the
    master finds and that hashes is reported as being in the master. *)
Theorem X14_master_files_of_normal_master_exist (argv : list string)
  (master : string) (out : reports) (sc : scan_state) (st : state)
  (f h : string) :
  main py_round w argv = Completed out sc st ->
  argv !! 1%nat = Some master ->
  normal master -> master <> "." ->
  f ∈ (scan_folder w master ([], [])).1 ->
  hash_file w f = Some h ->
  exists e, e ∈ json_files (report_json out)
            /\ source_path e = f /\ in_master e = true
            /\ recommended_action e = "EXISTS_IN_MASTER".
Proof.
  intros Hmain Harg Hn Hdot Hf Hh.
  apply (main_prefixed_file_in_master py_round w argv master out sc st f h);
    [done|done| |by apply master_files_selected|done].
  destruct (main_completed py_round w _ _ _ _ Hmain)
    as (prog & m & rest & -> & -> & _ & _).
  injection Harg as ->. by apply master_files_first.
Qed.

(** X15: when moreover, for each other root given, neither the first
    argument nor the beginning of the paths below that root is the beginning
    of the other, the index holds a digest exactly when a file found by the
    scan of the master has it: no file of another root enters the index. *)
Theorem X15_index_of_separate_roots (argv : list string) (master : string)
  (out : reports) (sc : scan_state) (st : state) (h : string) :
  main py_round w argv = Completed out sc st ->
  argv !! 1%nat = Some master ->
  normal master -> master <> "." ->
  (forall r, argv !! 2%nat = Some r \/ argv !! 3%nat = Some r ->
             apart master (dir_prefix (PosixPath.Path r))) ->
  is_Some (master_hashes st !! h)
  <-> exists f, f ∈ (scan_folder w master ([], [])).1 /\ hash_file w f = Some h.
Proof.
  intros Hmain Harg Hn Hdot Hapart.
  rewrite (main_index_keys py_round w _ _ _ _ _ h Hmain Harg).
  destruct (main_completed py_round w _ _ _ _ Hmain)
    as (prog & m & rest & -> & -> & _ & _).
  injection Harg as ->. cbn [lookup list_lookup] in Hapart.
  split.
  - intros (f & Hf & Hsel & Hh). exists f. split; [|done].
    apply all_files_origin in Hf as [Hf|(r & Hr & Hf)]; [done|].
    rewrite (other_files_not_selected master r f) in Hsel; [done| |done].
    apply Hapart. destruct Hr as [Hr|Hr]; [left|right]; exact Hr.
  - intros (f & Hf & Hh). exists f.
    split_and!; [by apply master_files_first|by apply master_files_selected|done].
Qed.

End NormalRoots.

(** ** The further properties on the run on [library] *)

Ltac library_names :=
  let root := fresh "root" in
  let tree := fresh "tree" in
  let H := fresh "H" in
  intros root tree H;
  cbv [library world_of tree_at assoc] in H;
  repeat (match type of H with
          | context [String.eqb ?a ?b] => destruct (String.eqb a b)
          end; [injection H as <-; vm_compute; reflexivity|]);
  discriminate H.

Ltac library_run :=
  match goal with
  | o := main _ _ _ |- _ => subst o
  | _ => idtac
  end; vm_compute; reflexivity.

(** The record of [/usb/b.mp3], a copy of the master's file. *)
Lemma X3_membership_is_by_digest_witness :
  let o := main round_id library library_argv in
  source_path library_record_b ∈ (completed_scan o).1
  /\ hash_file library (source_path library_record_b)
     = Some (hash library_record_b)
  /\ (in_master library_record_b = true
      <-> exists g, g ∈ (completed_scan o).1
                    /\ PyStr.startswith g "/master" = true
                    /\ hash_file library g = Some (hash library_record_b))
  /\ recommended_action library_record_b
     = (if in_master library_record_b
        then "EXISTS_IN_MASTER" else "NEW_IN_MASTER").
Proof.
  intros o.
  apply (X3_membership_is_by_digest round_id library library_argv "/master"
           (completed_reports o) (completed_scan o) (completed_state o)
           library_record_b).
  - library_run.
  - reflexivity.
  - vm_compute. repeat constructor.
Defined.

(** [/usb/b.mp3] has the bytes of [/master/a.flac]. *)
Lemma X4_copy_of_master_file_exists_in_master_witness :
  let o := main round_id library library_argv in
  exists e, e ∈ json_files (report_json (completed_reports o))
            /\ source_path e = "/usb/b.mp3" /\ in_master e = true
            /\ recommended_action e = "EXISTS_IN_MASTER".
Proof.
  intros o.
  apply (X4_copy_of_master_file_exists_in_master round_id library library_argv
           "/master" (completed_reports o) (completed_scan o) (completed_state o)
           "/usb/b.mp3" "/master/a.flac" (bytes_of "X")).
  - library_run.
  - reflexivity.
  - vm_compute. repeat constructor.
  - vm_compute. repeat constructor.
  - reflexivity.
  - reflexivity.
  - reflexivity.
Defined.

(** The digest of the master's file in the run on [library]. *)
Lemma X5_index_keeps_last_path_witness :
  let o := main round_id library library_argv in
  master_hashes (completed_state o) !! "c032adc1ff629c9b66f22749ad667e6beadf144b"
  = last (filter (fun f => selected "/master" f = true
                           /\ hash_file library f
                              = Some "c032adc1ff629c9b66f22749ad667e6beadf144b")
            (completed_scan o).1).
Proof.
  intros o.
  apply (X5_index_keeps_last_path round_id library library_argv "/master"
           (completed_reports o) (completed_scan o) (completed_state o)).
  - library_run.
  - reflexivity.
Defined.

(** Five paths scanned: four records and one hash error. *)
Lemma X6_every_scanned_file_is_accounted_for_witness :
  let o := main round_id library library_argv in
  List.length (completed_scan o).1
  = (json_total_files (report_json (completed_reports o))
     + List.length (hash_errors (completed_state o)))%nat
  /\ (sum_in_master (report_summary (completed_reports o))
      + sum_new (report_summary (completed_reports o)))%nat
     = sum_total (report_summary (completed_reports o))
  /\ sum_total (report_summary (completed_reports o))
     = json_total_files (report_json (completed_reports o))
  /\ List.length (report_detailed_csv (completed_reports o))
     = json_total_files (report_json (completed_reports o))
  /\ json_total_files (report_json (completed_reports o))
     = List.length (json_files (report_json (completed_reports o)))
  /\ json_total_errors (report_json (completed_reports o))
     = (List.length (completed_scan o).2
        + List.length (hash_errors (completed_state o)))%nat.
Proof.
  intros o.
  apply (X6_every_scanned_file_is_accounted_for round_id library library_argv
           (completed_reports o) (completed_scan o) (completed_state o)).
  library_run.
Defined.

(** The MP3 records of the run on [library]. *)
Lemma X7_summary_counts_records_by_format_witness :
  let o := main round_id library library_argv in
  sum_by_format (report_summary (completed_reports o)) !! ".mp3"
  = count_entries (filter (fun e => format e = ".mp3")
                     (json_files (report_json (completed_reports o)))).
Proof.
  intros o.
  apply (X7_summary_counts_records_by_format round_id library library_argv
           (completed_reports o) (completed_scan o) (completed_state o) ".mp3").
  library_run.
Defined.

(** The summary of the run on [library]. *)
Lemma X8_summary_adds_up_witness :
  let o := main round_id library library_argv in
  summary_total (sum_by_format (report_summary (completed_reports o)))
  = sum_total (report_summary (completed_reports o)).
Proof.
  intros o.
  apply (X8_summary_adds_up round_id library library_argv
           (completed_reports o) (completed_scan o) (completed_state o)).
  library_run.
Defined.

(** An MP3 file at 128 and at 320 kilobits per second. *)
Lemma X9_rank_is_monotone_witness :
  (1 <= compute_quality_rank ".mp3" (Some 320)
   /\ compute_quality_rank ".mp3" (Some 320) <= compute_quality_rank ".mp3" (Some 128)
   /\ compute_quality_rank ".mp3" (Some 128) <= compute_quality_rank ".mp3" None
   /\ compute_quality_rank ".mp3" None <= 9999)
  /\ (forall bitrate : option Z,
        compute_quality_rank ".mp3" bitrate <= 2
        <-> ".mp3" = ".wav" \/ ".mp3" = ".aif" \/ ".mp3" = ".aiff"
            \/ ".mp3" = ".flac").
Proof.
  apply (X9_rank_is_monotone ".mp3" 128 320). lia.
Defined.

(** Five paths, one of them under [/master]: six calls. *)
Lemma X11_selected_files_are_hashed_twice_witness :
  let o := main round_id library library_argv in
  List.filter is_hashing (trace (completed_state o))
  = ((fun f => Hashed f (hash_file library f))
       <$> (List.filter (selected "/master") (completed_scan o).1
            ++ (completed_scan o).1))
  /\ List.length (List.filter is_hashing (trace (completed_state o)))
     = (List.length (completed_scan o).1
        + List.length (List.filter (selected "/master") (completed_scan o).1))%nat.
Proof.
  intros o.
  apply (X11_selected_files_are_hashed_twice round_id library library_argv
           "/master" (completed_reports o) (completed_scan o) (completed_state o)).
  - library_run.
  - reflexivity.
Defined.

(** A file in a sub-directory of [/usb]. *)
Lemma X12_scanned_paths_are_normal_witness :
  normal "/usb/live/f.MP3"
  /\ PyStr.startswith "/usb/live/f.MP3" (dir_prefix (PosixPath.Path "/usb")) = true
  /\ is_component (PosixPath.name (PosixPath.Path "/usb/live/f.MP3")) = true
  /\ PyStr.startswith (PosixPath.name (PosixPath.Path "/usb/live/f.MP3")) "._"
     = false
  /\ PyStr.lower (PosixPath.suffix (PosixPath.Path "/usb/live/f.MP3")) ∈ AUDIO_EXT.
Proof.
  apply (X12_scanned_paths_are_normal library "/usb" usb_tree "/usb/live/f.MP3").
  - reflexivity.
  - reflexivity.
  - vm_compute. repeat constructor.
Defined.

(** The record of [/usb/b.mp3]. *)
Lemma X13_records_are_audio_files_witness :
  format library_record_b ∈ AUDIO_EXT
  /\ normal (source_path library_record_b)
  /\ filename library_record_b
     = PosixPath.name (PosixPath.Path (source_path library_record_b))
  /\ is_component (filename library_record_b) = true
  /\ PyStr.startswith (filename library_record_b) "._" = false
  /\ quality_rank library_record_b
     = compute_quality_rank (format library_record_b)
         (bitrate_kbps library_record_b).
Proof.
  pose (o := main round_id library library_argv).
  apply (X13_records_are_audio_files round_id library ltac:(library_names)
           library_argv (completed_reports o) (completed_scan o)
           (completed_state o) library_record_b).
  - library_run.
  - vm_compute. repeat constructor.
Defined.

(** The file of [/master]. *)
Lemma X14_master_files_of_normal_master_exist_witness :
  let o := main round_id library library_argv in
  exists e, e ∈ json_files (report_json (completed_reports o))
            /\ source_path e = "/master/a.flac" /\ in_master e = true
            /\ recommended_action e = "EXISTS_IN_MASTER".
Proof.
  intros o.
  apply (X14_master_files_of_normal_master_exist round_id library
           ltac:(library_names) library_argv "/master"
           (completed_reports o) (completed_scan o) (completed_state o)
           "/master/a.flac" "c032adc1ff629c9b66f22749ad667e6beadf144b").
  - library_run.
  - reflexivity.
  - reflexivity.
  - discriminate.
  - vm_compute. repeat constructor.
  - vm_compute. reflexivity.
Defined.

(** [/master] beside [/usb] and [/gone]. *)
Lemma X15_index_of_separate_roots_witness :
  let o := main round_id library library_argv in
  is_Some (master_hashes (completed_state o)
             !! "c032adc1ff629c9b66f22749ad667e6beadf144b")
  <-> exists f, f ∈ (scan_folder library "/master" ([], [])).1
                /\ hash_file library f
                   = Some "c032adc1ff629c9b66f22749ad667e6beadf144b".
Proof.
  intros o.
  apply (X15_index_of_separate_roots round_id library ltac:(library_names)
           library_argv "/master"
           (completed_reports o) (completed_scan o) (completed_state o)).
  - library_run.
  - reflexivity.
  - reflexivity.
  - discriminate.
  - intros r [Hr|Hr]; injection Hr as <-; split; reflexivity.
Defined.

(** A stream of 127500 bits per second in an MP3 file. *)
Lemma X16_rank_thresholds_in_bits_per_second_witness :
  compute_quality_rank ".mp3"
    (get_bitrate_and_duration library "/usb/live/f.MP3").1
  = (if 319500 <=? 127500 then 3
     else if 255500 <=? 127500 then 4
     else if 191500 <=? 127500 then 5
     else 6).
Proof.
  apply (proj1 (X16_rank_thresholds_in_bits_per_second library "/usb/live/f.MP3"
                  ".mp3" {| info_bitrate := Some 127500; info_length := None |}
                  127500 eq_refl eq_refl ltac:(discriminate) ltac:(discriminate)
                  ltac:(discriminate) ltac:(discriminate))).
  vm_compute. reflexivity.
Defined.
